(** * ReguChatAI: the retrieval engine ([vector_store.py]) and the RAG
    pipeline ([rag_pipeline.py]) as a shallow embedding.

    The Python objects are mutable and talk to two external services
    (the OpenAI API and the FAISS library).  The embedding therefore runs
    in a small state-and-exception monad over a [world]: the fields of the
    [VectorStore] object plus the log of external calls made so far.  The
    external services are the fields of a record [Services]; every theorem
    is stated for an arbitrary such record, and a mock instance ([Mock],
    one-hot embeddings) is used to evaluate the code on concrete inputs.

    Floating point is kept abstract: [float] is any type with decidable
    equality, whose elements stand for the double-precision values; a
    [numpy.float32] is the double it equals.  Python's [>=] on floats is
    the service field [float_ge], the rounding of a double to single
    precision is [to_float32].

    A Python [str] is a [string] whose every [ascii] is one character of
    it (code points below 256); [len] and slices count these. *)

From stdpp Require Import gmap strings list sorting pretty.

Open Scope string_scope.
Open Scope list_scope.
Open Scope Z_scope.

(** ** Exceptions *)

(** A raised Python exception: its class name and [str(e)]. *)
Record exn := Raise { exn_class : string; exn_str : string }.

(** [Exception(msg)], the only class the repository raises itself. *)
Definition Exception (msg : string) : exn :=
  {| exn_class := "Exception"; exn_str := msg |}.

(** [documents[idx]] out of range. *)
Definition IndexError : exn :=
  {| exn_class := "IndexError"; exn_str := "list index out of range" |}.

(** ** External calls *)

Inductive call :=
| EmbeddingsCreate (model : string) (input : list string)
| ChatCompletionsCreate (model : string) (system_content user_content : string).

Section Model.

Context {float : Type} `{!EqDecision float, !Countable float}.

(** ** Python values stored in metadata dictionaries *)

Inductive pyval :=
| VStr (s : string)
| VInt (z : Z)
| VFloat (f : float).

#[global] Instance pyval_eq_dec : EqDecision pyval.
Proof. solve_decision. Defined.

#[global] Instance pyval_countable : Countable pyval.
Proof.
  refine (inj_countable'
    (λ v, match v with
          | VStr s => inl s | VInt z => inr (inl z) | VFloat f => inr (inr f)
          end)
    (λ x, match x with
          | inl s => VStr s | inr (inl z) => VInt z | inr (inr f) => VFloat f
          end) _).
  by intros [].
Defined.

(** A metadata record, a Python [dict] with string keys. *)
Local Abbreviation dict := (gmap string pyval).

(** [dict.get(key, default)]. *)
Definition get (d : dict) (key : string) (default : pyval) : pyval :=
  match d !! key with Some v => v | None => default end.

(** langchain's [Document]. *)
Record Document := { page_content : string; metadata : dict }.

(** A row of a [float32] matrix. *)
Definition vec : Type := list float.

(** ** The external services

    - [embeddings_create log model input]: the response of
      [openai_client.embeddings.create], one [embedding] per element of
      [response.data], or the exception it raises; it may depend on the
      calls made before.
    - [chat_completions_create log model system user]: the [message.content]
      of each of [response.choices], or the exception raised.
    - [normalize_row]: what [faiss.normalize_L2] does to one row.
    - [index_add_check d rows]: the exception [IndexFlatIP(d).add(rows)]
      raises instead of adding, if any.
    - [index_search d stored queries k]: [index.search(queries, k)] on an
      index holding [stored], one row of (score, label) pairs per query,
      or the exception raised.
    - [float_ge a b]: Python's [a >= b].
    - [to_float32 x]: the double [x] rounded to single precision, as
      NumPy (from version 2 on) converts a Python float that meets a
      [numpy.float32] in an operation.
    - [format_2f]: the format specification [:.2f].
    - [str_float]: [str] of a float.
    - [default_score_threshold]: the literal [0.7]. *)
Record Services := {
  embeddings_create : list call → string → list string → exn + list vec;
  chat_completions_create :
    list call → string → string → string → exn + list (option string);
  normalize_row : vec → vec;
  index_add_check : Z → list vec → option exn;
  index_search : Z → list vec → list vec → Z → exn + list (list (float * Z));
  float_ge : float → float → bool;
  to_float32 : float → float;
  format_2f : float → string;
  str_float : float → string;
  default_score_threshold : float
}.

(** ** The object state and the monad *)

(** The fields of a [VectorStore]; [index] is the content of the
    [faiss.IndexFlatIP], whose [ntotal] is its length. *)
Record VectorStore := {
  embedding_dimension : Z;
  index : list vec;
  documents : list dict;
  document_count : Z;
  embedding_model : string
}.

Definition ntotal (s : VectorStore) : Z := Z.of_nat (length (index s)).

Record world := { self : VectorStore; calls : list call }.

Definition M (A : Type) : Type := world → (exn + A) * world.

Definition ret {A} (a : A) : M A := λ w, (inr a, w).

Definition raise {A} (e : exn) : M A := λ w, (inl e, w).

Definition bind {A B} (m : M A) (k : A → M B) : M B :=
  λ w, match m w with
       | (inr a, w') => k a w'
       | (inl e, w') => (inl e, w')
       end.

(** [try: m except Exception as e: h e]. *)
Definition try_except {A} (m : M A) (h : exn → M A) : M A :=
  λ w, match m w with
       | (inr a, w') => (inr a, w')
       | (inl e, w') => h e w'
       end.

Definition get_self : M VectorStore := λ w, (inr (self w), w).

Definition put_self (s : VectorStore) : M unit :=
  λ w, (inr tt, {| self := s; calls := calls w |}).

Definition lift {A} (r : exn + A) : M A := λ w, (r, w).

End Model.

Arguments pyval : clear implicits.
Arguments Document : clear implicits.
Arguments vec : clear implicits.
Arguments Services : clear implicits.
Arguments VectorStore : clear implicits.
Arguments world : clear implicits.
Arguments M : clear implicits.

Abbreviation dict float := (gmap string (pyval float)).

Notation "'let*' x ':=' m 'in' k" := (bind m (λ x, k))
  (at level 10, x name, m at level 100, k at level 200).
Notation "m ';;;' k" := (bind m (λ _, k))
  (at level 100, k at level 200, right associativity).

(** ** [vector_store.py] *)

Section VectorStoreOps.

Context {float : Type} `{!EqDecision float, !Countable float}.
Context (E : Services float).

(** [VectorStore.__init__]: building the OpenAI client makes no call. *)
Definition init (embedding_dimension : Z) : VectorStore float :=
  {| embedding_dimension := embedding_dimension;
     index := [];
     documents := [];
     document_count := 0;
     embedding_model := "text-embedding-3-small" |}.

(** [self.openai_client.embeddings.create(model=..., input=texts)] followed
    by the loop collecting [embedding_obj.embedding] and the conversion
    [np.array(embeddings, dtype=np.float32)]; an exception of the
    conversion is raised in the same [try] block as one of the call and is
    part of the answer of [embeddings_create]. *)
Definition openai_embeddings (texts : list string) : M float (list (vec float)) :=
  λ w, let model := embedding_model (self w) in
       (embeddings_create E (calls w) model texts,
        {| self := self w; calls := calls w ++ [EmbeddingsCreate model texts] |}).

Definition _get_embeddings (texts : list string) : M float (list (vec float)) :=
  try_except
    (let* embeddings := openai_embeddings texts in
     ret embeddings)
    (λ e, raise (Exception ("Error generating embeddings: " +:+ exn_str e))).

(** [faiss.normalize_L2], in place on every row. *)
Definition normalize_L2 (x : list (vec float)) : list (vec float) :=
  map (normalize_row E) x.

(** [self.index.add(embeddings)]: all rows are appended, or none. *)
Definition index_add (embeddings : list (vec float)) : M float unit :=
  let* s := get_self in
  match index_add_check E (embedding_dimension s) embeddings with
  | Some e => raise e
  | None =>
      put_self {| embedding_dimension := embedding_dimension s;
                  index := index s ++ embeddings;
                  documents := documents s;
                  document_count := document_count s;
                  embedding_model := embedding_model s |}
  end.

(** The body of the metadata loop of [add_documents] for one [(i, doc)]:
    [len(self.documents)] and [self.document_count] are read from the
    object at that iteration. *)
Definition store_metadata (i : Z) (doc : Document float) : M float unit :=
  let* s := get_self in
  let doc_metadata :=
    <["vector_index" := VInt (Z.of_nat (length (documents s)) + i)]>
      (<["doc_id" := VInt (document_count s + i)]>
         (<["content" := VStr (page_content doc)]> (metadata doc))) in
  put_self {| embedding_dimension := embedding_dimension s;
              index := index s;
              documents := documents s ++ [doc_metadata];
              document_count := document_count s;
              embedding_model := embedding_model s |}.

(** [for i, doc in enumerate(documents)], counting from [i]. *)
Fixpoint store_all (i : Z) (docs : list (Document float)) : M float unit :=
  match docs with
  | [] => ret tt
  | doc :: rest => store_metadata i doc ;;; store_all (i + 1) rest
  end.

Definition bump_document_count (n : Z) : M float unit :=
  let* s := get_self in
  put_self {| embedding_dimension := embedding_dimension s;
              index := index s;
              documents := documents s;
              document_count := document_count s + n;
              embedding_model := embedding_model s |}.

Definition add_documents (docs : list (Document float)) : M float unit :=
  match docs with
  | [] => ret tt
  | _ :: _ =>
      try_except
        (let texts := map page_content docs in
         let* embeddings := _get_embeddings texts in
         let embeddings := normalize_L2 embeddings in
         index_add embeddings ;;;
         store_all 0 docs ;;;
         bump_document_count (Z.of_nat (length docs)))
        (λ e, raise (Exception
                       ("Error adding documents to vector store: " +:+ exn_str e)))
  end.

(** [self.index.search(query_embedding, k)] and the selection of row [0]
    of both result arrays, zipped. *)
Definition faiss_search (query_embedding : list (vec float)) (k : Z)
  : M float (list (float * Z)) :=
  let* s := get_self in
  match index_search E (embedding_dimension s) (index s) query_embedding k with
  | inl e => raise e
  | inr [] => raise IndexError
  | inr (row :: _) => ret row
  end.

(** The result loop of [similarity_search]; [results] is the list built
    so far.  [score] is a [numpy.float32] and [score_threshold] a Python
    float: [score >= score_threshold] is evaluated in single precision,
    on the threshold rounded to it; [float(score)] is exact. *)
Fixpoint collect_results (score_threshold : float) (hits : list (float * Z))
    (results : list (dict float)) : M float (list (dict float)) :=
  match hits with
  | [] => ret results
  | (score, idx) :: rest =>
      if (0 <=? idx) && float_ge E score (to_float32 E score_threshold) then
        let* s := get_self in
        match documents s !! Z.to_nat idx with
        | Some d =>
            let doc_metadata := <["score" := VFloat score]> d in
            collect_results score_threshold rest (results ++ [doc_metadata])
        | None => raise IndexError
        end
      else collect_results score_threshold rest results
  end.

Definition similarity_search (query : string) (k : Z) (score_threshold : float)
  : M float (list (dict float)) :=
  let* s := get_self in
  if ntotal s =? 0 then ret []
  else
    try_except
      (let* query_embedding := _get_embeddings [query] in
       let query_embedding := normalize_L2 query_embedding in
       let* s := get_self in
       let* hits := faiss_search query_embedding (Z.min k (ntotal s)) in
       collect_results score_threshold hits [])
      (λ e, raise (Exception
                     ("Error performing similarity search: " +:+ exn_str e))).

(** The dictionary returned by [get_statistics]; [sources] is the set
    before [list(...)] fixes an iteration order. *)
Record Statistics := {
  total_documents : Z;
  total_chunks : Z;
  index_size : Z;
  stat_embedding_dimension : Z;
  sources : gset (pyval float)
}.

Definition unique_sources (docs : list (dict float)) : gset (pyval float) :=
  foldl (λ acc doc, acc ∪ {[ get doc "source" (VStr "Unknown") ]}) ∅ docs.

Definition get_statistics (s : VectorStore float) : Statistics :=
  {| total_documents := Z.of_nat (size (unique_sources (documents s)));
     total_chunks := Z.of_nat (length (documents s));
     index_size := ntotal s;
     stat_embedding_dimension := embedding_dimension s;
     sources := unique_sources (documents s) |}.

Definition clear : M float unit :=
  let* s := get_self in
  put_self {| embedding_dimension := embedding_dimension s;
              index := [];
              documents := [];
              document_count := 0;
              embedding_model := embedding_model s |}.

Definition get_document_by_source (source : string) (s : VectorStore float)
  : list (dict float) :=
  filter (λ doc, doc !! "source" = Some (VStr source)) (documents s).

End VectorStoreOps.

(** ** [rag_pipeline.py] *)

Section RAGPipelineOps.

Context {float : Type} `{!EqDecision float, !Countable float}.
Context (E : Services float).

(** The values of the dictionary [get_response] returns. *)
Inductive rval :=
| RStr (s : string)
| RNone
| RInt (z : Z)
| RList (l : list (dict float)).

(** [self.model]. *)
Definition model : string := "gpt-5".

Definition ValueError (msg : string) : exn :=
  {| exn_class := "ValueError"; exn_str := msg |}.

Definition TypeError (msg : string) : exn :=
  {| exn_class := "TypeError"; exn_str := msg |}.

(** A replacement field [{v}] of an f-string. *)
Definition format_plain (v : pyval float) : string :=
  match v with
  | VStr s => s
  | VInt z => pretty z
  | VFloat f => str_float E f
  end.

(** A replacement field [{v:.2f}]. *)
Definition format_fixed2 (v : pyval float) : exn + string :=
  match v with
  | VStr _ => inl (ValueError "Unknown format code 'f' for object of type 'str'")
  | VInt z => inr (pretty z +:+ ".00")
  | VFloat f => inr (format_2f E f)
  end.

(** [str.join]. *)
Fixpoint join (sep : string) (parts : list string) : string :=
  match parts with
  | [] => EmptyString
  | [p] => p
  | p :: rest => p +:+ sep +:+ join sep rest
  end.

Definition newline : string := String (Ascii.ascii_of_nat 10) EmptyString.

(** The loop of [_prepare_context], [i] counting from its argument. *)
Fixpoint context_parts (i : Z) (docs : list (dict float)) : exn + list string :=
  match docs with
  | [] => inr []
  | doc :: rest =>
      let source := get doc "source" (VStr "Unknown Document") in
      let content := get doc "content" (VStr EmptyString) in
      let score := get doc "score" (VInt 0) in
      match format_fixed2 score with
      | inl e => inl e
      | inr score_text =>
          let part :=
            "[Source " +:+ pretty i +:+ ": " +:+ format_plain source
            +:+ " (Relevance: " +:+ score_text +:+ ")]" +:+ newline
            +:+ format_plain content +:+ newline in
          match context_parts (i + 1) rest with
          | inl e => inl e
          | inr parts => inr (part :: parts)
          end
      end
  end.

Definition _prepare_context (docs : list (dict float)) : exn + string :=
  match context_parts 1 docs with
  | inl e => inl e
  | inr parts => inr (join newline parts)
  end.

Definition base_prompt : string :=
  "You are an expert regulatory compliance assistant. Your role is to provide accurate, helpful, and context-aware responses based on the regulatory documents provided. Always cite your sources and be transparent about the limitations of your knowledge.".

Definition compliance_analyst_prompt : string :=
  newline +:+
  "You are responding to a Compliance Analyst. Provide detailed, technical responses with:" +:+ newline +:+
  "- Specific regulatory references and citations" +:+ newline +:+
  "- Technical compliance terminology" +:+ newline +:+
  "- Detailed procedural information" +:+ newline +:+
  "- Risk assessment considerations" +:+ newline +:+
  "- Cross-references to related regulations when applicable" +:+ newline.

Definition relationship_manager_prompt : string :=
  newline +:+
  "You are responding to a Relationship Manager. Provide clear, business-focused responses with:" +:+ newline +:+
  "- Plain language explanations of regulatory requirements" +:+ newline +:+
  "- Practical implications for client relationships" +:+ newline +:+
  "- Key takeaways and action items" +:+ newline +:+
  "- Customer-facing guidance" +:+ newline +:+
  "- Focus on business impact rather than technical details" +:+ newline.

Definition _get_system_prompt (user_role : string) : string :=
  base_prompt +:+
  (if decide (user_role = "Compliance Analyst") then compliance_analyst_prompt
   else if decide (user_role = "Relationship Manager") then relationship_manager_prompt
   else EmptyString).

Definition _create_role_specific_prompt (query context user_role : string) : string :=
  newline +:+
  "Based on the following regulatory documents and context, please answer the user's question." +:+ newline +:+
  newline +:+
  "CONTEXT FROM REGULATORY DOCUMENTS:" +:+ newline +:+
  context +:+ newline +:+
  newline +:+
  "USER QUESTION: " +:+ query +:+ newline +:+
  newline +:+
  "RESPONSE REQUIREMENTS:" +:+ newline +:+
  "1. Provide a comprehensive answer based on the provided context" +:+ newline +:+
  "2. Always cite specific sources from the context when making claims" +:+ newline +:+
  "3. If the context doesn't fully answer the question, clearly state what information is missing" +:+ newline +:+
  "4. Tailor your response to a " +:+ user_role +:+ " audience" +:+ newline +:+
  "5. Include relevant warnings or disclaimers about regulatory compliance" +:+ newline +:+
  "6. If applicable, mention related regulations or considerations" +:+ newline +:+
  newline +:+
  "Please provide your response:" +:+ newline.

(** The ['content'] entry of a formatted source: the first 500 characters
    and an ellipsis when the content is longer, the content otherwise;
    [len] of a number raises. *)
Definition source_content (content : pyval float) : exn + pyval float :=
  match content with
  | VStr s =>
      if 500 <? Z.of_nat (String.length s)
      then inr (VStr (String.substring 0 500 s +:+ "..."))
      else inr (VStr s)
  | VInt _ => inl (TypeError "object of type 'int' has no len()")
  | VFloat _ => inl (TypeError "object of type 'float' has no len()")
  end.

Fixpoint _format_sources (docs : list (dict float)) : exn + list (dict float) :=
  match docs with
  | [] => inr []
  | doc :: rest =>
      match source_content (get doc "content" (VStr EmptyString)) with
      | inl e => inl e
      | inr content =>
          let source_info : dict float :=
            {[ "document" := get doc "source" (VStr "Unknown Document");
               "content" := content;
               "score" := get doc "score" (VInt 0);
               "chunk_id" := get doc "chunk_id" (VInt 0);
               "file_type" := get doc "file_type" (VStr "unknown") ]} in
          match _format_sources rest with
          | inl e => inl e
          | inr sources => inr (source_info :: sources)
          end
      end
  end.

(** [self.openai_client.chat.completions.create(...)] and
    [response.choices[0].message.content]. *)
Definition openai_chat (system_content user_content : string) : M float (option string) :=
  λ w, let w' := {| self := self w;
                    calls := calls w ++
                      [ChatCompletionsCreate model system_content user_content] |} in
       match chat_completions_create E (calls w) model system_content user_content with
       | inl e => (inl e, w')
       | inr [] => (inl IndexError, w')
       | inr (content :: _) => (inr content, w')
       end.

Definition no_information_answer : string :=
  "I couldn't find relevant information in the uploaded documents to answer your question. Please ensure you've uploaded the appropriate regulatory documents or try rephrasing your question.".

Definition no_information_response : gmap string rval :=
  {[ "answer" := RStr no_information_answer; "sources" := RList [] ]}.

Definition error_response (e : exn) : gmap string rval :=
  {[ "answer" := RStr ("I encountered an error while processing your question: "
                       +:+ exn_str e +:+
                       ". Please try again or contact support if the issue persists.");
     "sources" := RList [] ]}.

(** The [try] block of [get_response]. *)
Definition get_response_body (query user_role : string) (k : Z)
  : M float (gmap string rval) :=
  let* relevant_docs := similarity_search E query k (default_score_threshold E) in
  match relevant_docs with
  | [] => ret no_information_response
  | _ :: _ =>
      let* context := lift (_prepare_context relevant_docs) in
      let prompt := _create_role_specific_prompt query context user_role in
      let* content := openai_chat (_get_system_prompt user_role) prompt in
      let answer := match content with Some s => RStr s | None => RNone end in
      let* sources := lift (_format_sources relevant_docs) in
      ret ({[ "answer" := answer;
              "sources" := RList sources;
              "context_used" := RInt (Z.of_nat (length relevant_docs)) ]}
           : gmap string rval)
  end.

Definition get_response (query user_role : string) (k : Z)
  : M float (gmap string rval) :=
  try_except (get_response_body query user_role k)
             (λ e, ret (error_response e)).

End RAGPipelineOps.

(** ** [rag_pipeline.py]: [get_document_summary] *)

Section RAGSummaryOps.

Context {float : Type} `{!EqDecision float, !Countable float}.
Context (E : Services float).

(** The name of the class of a value in the message of [str.join]. *)
Definition class_name (v : pyval float) : string :=
  match v with
  | VStr _ => "str"
  | VInt _ => "int"
  | VFloat _ => "float"
  end.

(** The items [chunk.get('content', '')] handed to [str.join], from item
    number [i] on: [join] raises on the first item that is no string. *)
Fixpoint content_items (i : nat) (chunks : list (dict float)) : exn + list string :=
  match chunks with
  | [] => inr []
  | chunk :: rest =>
      match get chunk "content" (VStr EmptyString) with
      | VStr text =>
          match content_items (S i) rest with
          | inl e => inl e
          | inr items => inr (text :: items)
          end
      | v =>
          inl (TypeError ("sequence item " +:+ pretty i +:+
                          ": expected str instance, " +:+ class_name v +:+ " found"))
      end
  end.

Definition summary_system_prompt : string :=
  "You are a regulatory compliance expert. Provide clear, structured summaries of regulatory documents.".

(** The prompt of [get_document_summary]; the remark after the content is
    inside the string literal of the source. *)
Definition summary_prompt (source full_content : string) : string :=
  newline +:+
  "Please provide a comprehensive summary of the following regulatory document:" +:+ newline +:+
  newline +:+
  "DOCUMENT: " +:+ source +:+ newline +:+
  "CONTENT:" +:+ newline +:+
  String.substring 0 4000 full_content +:+ "  # Limit content to avoid token limits" +:+ newline +:+
  newline +:+
  "Please provide a structured summary including:" +:+ newline +:+
  "1. Document purpose and scope" +:+ newline +:+
  "2. Key regulatory requirements" +:+ newline +:+
  "3. Important deadlines or timelines" +:+ newline +:+
  "4. Compliance obligations" +:+ newline +:+
  "5. Penalties or consequences for non-compliance" +:+ newline.

Definition no_summary : string := "No summary generated".

(** [content or "No summary generated"]. *)
Definition content_or_default (content : option string) : string :=
  match content with
  | None => no_summary
  | Some EmptyString => no_summary
  | Some text => text
  end.

Definition get_document_summary (source : string) : M float string :=
  try_except
    (let* s := get_self in
     let doc_chunks := get_document_by_source source s in
     match doc_chunks with
     | [] => ret ("No document found with source: " +:+ source)
     | _ :: _ =>
         let* items := lift (content_items 0 doc_chunks) in
         let full_content := join newline items in
         let prompt := summary_prompt source full_content in
         let* content := openai_chat E summary_system_prompt prompt in
         ret (content_or_default content)
     end)
    (λ e, ret ("Error generating document summary: " +:+ exn_str e)).

End RAGSummaryOps.

(** ** [utils.py] *)

(** The slice [text[:stop]]: a negative [stop] counts from the end. *)
Definition slice_to (stop : Z) (text : string) : string :=
  if 0 <=? stop then String.substring 0 (Z.to_nat stop) text
  else String.substring 0 (Z.to_nat (Z.of_nat (String.length text) + stop)) text.

Definition truncate_text (text : string) (max_length : Z) : string :=
  if Z.of_nat (String.length text) <=? max_length then text
  else slice_to max_length text +:+ "...".

Definition size_names : list string := ["B"; "KB"; "MB"; "GB"].

(** The [while] loop of [format_file_size], at most [fuel] rounds.
    [int(size_bytes / 1024.0)] is the quotient rounded down as long as
    [size_bytes] is below [2 ^ 53], where the conversion to a float and the
    division are exact. *)
Fixpoint scale_size (fuel : nat) (size_bytes : Z) (i : nat) : Z * nat :=
  match fuel with
  | O => (size_bytes, i)
  | S fuel' =>
      if (1024 <=? size_bytes) && (i <? length size_names - 1)%nat
      then scale_size fuel' (size_bytes / 1024) (S i)
      else (size_bytes, i)
  end.

(** [format_file_size]; the loop runs at most three rounds, [i] rising
    from [0] to [len(size_names) - 1]. *)
Definition format_file_size (size_bytes : Z) : string :=
  if size_bytes =? 0 then "0 B"
  else
    let '(size_bytes, i) := scale_size 3 size_bytes 0 in
    pretty size_bytes +:+ ".0 " +:+ default EmptyString (size_names !! i).

(** ** Properties of stores, searches and services *)

Section Properties.

Context {float : Type} `{!EqDecision float, !Countable float}.
Context (E : Services float).

(** The index and the metadata list have the same number of entries. *)
Definition lockstep (s : VectorStore float) : Prop :=
  length (index s) = length (documents s).

(** [document_count] counts the metadata records, and the record at list
    position [i] carries [doc_id = i]. *)
Definition positions_ok (s : VectorStore float) : Prop :=
  document_count s = Z.of_nat (length (documents s)) ∧
  ∀ (i : nat) (d : dict float),
    documents s !! i = Some d → d !! "doc_id" = Some (VInt (Z.of_nat i)).

(** The embeddings API answers with one embedding per input text. *)
Definition embedder_contract : Prop :=
  ∀ log model input rows,
    embeddings_create E log model input = inr rows → length rows = length input.

(** The operations a client interleaves on one store. *)
Inductive op :=
| AddDocuments (docs : list (Document float))
| Clear
| SimilaritySearch (query : string) (k : Z) (score_threshold : float).

(** One client call; an exception it raises is the caller's to handle and
    the object lives on. *)
Definition step (w : world float) (o : op) : world float :=
  match o with
  | AddDocuments docs => (add_documents E docs w).2
  | Clear => (clear w).2
  | SimilaritySearch query k score_threshold =>
      (similarity_search E query k score_threshold w).2
  end.

Definition run (ops : list op) (w : world float) : world float :=
  foldl step w ops.

(** [a] is ranked before [b] in the order by score and then by insertion:
    its score is not lower, and on equal scores its position is the
    earlier one. *)
Definition ranked (a b : float * Z) : Prop :=
  float_ge E a.1 b.1 = true ∧ (float_ge E b.1 a.1 = true → a.2 < b.2).

(** A label of a search row that names a stored vector ([-1] pads). *)
Definition valid_hit (h : float * Z) : Prop := 0 ≤ h.2.

(** [a] comes before [b] by score alone: its score is not lower. *)
Definition score_ranked (a b : float * Z) : Prop :=
  float_ge E a.1 b.1 = true.

(** What [index.search(x, k)] promises of each row it returns: [k]
    entries, those with a valid label by non-increasing score.  The order
    of entries with equal scores is the index's own. *)
Definition row_ok (k : Z) (row : list (float * Z)) : Prop :=
  Z.of_nat (length row) = k ∧ StronglySorted score_ranked (filter valid_hit row).

Definition faiss_contract : Prop :=
  ∀ d stored queries k rows,
    index_search E d stored queries k = inr rows → Forall (row_ok k) rows.

(** The ['score'] and ['doc_id'] entries of a result dictionary. *)
Definition score_of (r : dict float) : option float :=
  match r !! "score" with Some (VFloat f) => Some f | _ => None end.

Definition doc_id_of (r : dict float) : option Z :=
  match r !! "doc_id" with Some (VInt z) => Some z | _ => None end.

(** The order of two results by their [score] entries alone. *)
Definition result_score_ranked (r1 r2 : dict float) : Prop :=
  ∃ s1 s2, score_of r1 = Some s1 ∧ score_of r2 = Some s2 ∧ float_ge E s1 s2 = true.

(** The order of two results by their [score] and [doc_id] entries. *)
Definition result_ranked (r1 r2 : dict float) : Prop :=
  ∃ s1 p1 s2 p2,
    score_of r1 = Some s1 ∧ doc_id_of r1 = Some p1 ∧
    score_of r2 = Some s2 ∧ doc_id_of r2 = Some p2 ∧
    ranked (s1, p1) (s2, p2).

(** The candidates of a query: the row the index search returns for its
    normalised embedding when asked for [min(k, ntotal)] entries. *)
Definition candidates (query : string) (k : Z) (w : world float)
  : list (float * Z) :=
  match (let* query_embedding := _get_embeddings E [query] in
         faiss_search E (normalize_L2 E query_embedding)
                      (Z.min k (ntotal (self w)))) w with
  | (inr hits, _) => hits
  | (inl _, _) => []
  end.


(** The metadata records the loop of [add_documents] appends for [docs]
    when the list holds [n] records, the counter is [c] and the
    enumeration stands at [i]. *)
Fixpoint appended_metadata (n : nat) (c i : Z) (docs : list (Document float))
  : list (dict float) :=
  match docs with
  | [] => []
  | doc :: rest =>
      <["vector_index" := VInt (Z.of_nat n + i)]>
        (<["doc_id" := VInt (c + i)]>
           (<["content" := VStr (page_content doc)]> (metadata doc)))
      :: appended_metadata (S n) c (i + 1) rest
  end.



(** A hit the result loop keeps: a valid label and a score that meets the
    threshold rounded to single precision. *)
Definition passes (score_threshold : float) (h : float * Z) : Prop :=
  0 ≤ h.2 ∧ float_ge E h.1 (to_float32 E score_threshold) = true.

#[global] Instance passes_dec score_threshold h : Decision (passes score_threshold h).
Proof. unfold passes. apply _. Defined.

#[global] Instance valid_hit_dec h : Decision (valid_hit h).
Proof. unfold valid_hit. apply _. Defined.

(** [r] is the copy of the record at the label of [h], with the score of
    [h] stored under ["score"]. *)
Definition joined (s : VectorStore float) (h : float * Z) (r : dict float) : Prop :=
  ∃ d, documents s !! Z.to_nat h.2 = Some d ∧ r = <["score" := VFloat h.1]> d.

(** The exceptions the [except] clauses of [_get_embeddings] and
    [add_documents] raise. *)
Definition embedding_error (e : exn) : exn :=
  Exception ("Error generating embeddings: " +:+ exn_str e).

Definition add_error (e : exn) : exn :=
  Exception ("Error adding documents to vector store: " +:+ exn_str e).


(** Every stored record has a string under ["content"]. *)
Definition content_ok (s : VectorStore float) : Prop :=
  ∀ (i : nat) (d : dict float),
    documents s !! i = Some d → ∃ text, d !! "content" = Some (VStr text).

(** The keys [add_documents] writes into a copy of the metadata. *)
Definition written_keys : list string := ["content"; "doc_id"; "vector_index"].

(** The world [w] with one more call in its log. *)
Definition logged (c : call) (w : world float) : world float :=
  {| self := self w; calls := calls w ++ [c] |}.

(** The embedding call [add_documents] makes for [docs]. *)
Definition embedding_call (w : world float) (texts : list string) : call :=
  EmbeddingsCreate (embedding_model (self w)) texts.

End Properties.

(** ** A mock environment

    A deterministic keyword embedder with one-hot rows of dimension 3, an
    exact inner-product index, and integers as floats (every score such
    rows produce is an integer).  The rows the embedder returns have at
    most one non-zero component, on which [normalize_row] is exact; a text
    without keyword is embedded as the zero row, which
    [faiss.normalize_L2] leaves as it is. *)

Module Mock.

Definition contains (keyword text : string) : bool :=
  match String.index 0 keyword text with
  | Some _ => true
  | None => false
  end.

Definition embed_text (text : string) : vec Z :=
  if contains "AML" text then [1; 0; 0]
  else if contains "KYC" text then [0; 1; 0]
  else if contains "GDPR" text then [0; 0; 1]
  else [0; 0; 0].

Definition AssertionError : exn :=
  {| exn_class := "AssertionError"; exn_str := EmptyString |}.

Definition APIConnectionError : exn :=
  {| exn_class := "APIConnectionError"; exn_str := "Connection error." |}.

Definition dot (a b : vec Z) : Z := foldr Z.add 0 (zip_with Z.mul a b).

(** Rounding to 24 significant bits, ties to even: the conversion of a
    double to single precision, on integers and on any other multiples of
    one power of two (exponents are not bounded here). *)
Definition round_float32 (z : Z) : Z :=
  let a := Z.abs z in
  let bits := Z.log2 a + 1 in
  if bits <=? 24 then z
  else
    let shift := bits - 24 in
    let q := Z.shiftr a shift in
    let r := a - Z.shiftl q shift in
    let half := Z.shiftl 1 (shift - 1) in
    let q' := if (half <? r) || ((r =? half) && Z.odd q) then q + 1 else q in
    Z.sgn z * Z.shiftl q' shift.

(** Better first: higher score; of equal scores the later position
    first, the order in which [IndexFlatIP] returns them. *)
Definition before (a b : Z * Z) : Prop :=
  b.1 < a.1 ∨ (a.1 = b.1 ∧ b.2 ≤ a.2).

#[global] Instance before_dec a b : Decision (before a b).
Proof. unfold before. apply _. Defined.

(** The score FAISS pads a row with when fewer than [k] rows are stored. *)
Definition lowest : Z := - 2 ^ 128.

(** One row of an exact search with the inner product [product]. *)
Definition search_row_by (product : vec Z → vec Z → Z)
    (stored : list (vec Z)) (k : Z) (q : vec Z) : list (Z * Z) :=
  let scored := imap (λ i v, (product q v, Z.of_nat i)) stored in
  let best := take (Z.to_nat k) (merge_sort before scored) in
  best ++ replicate (Z.to_nat k - length best)%nat (lowest, -1).

Definition search_row : list (vec Z) → Z → vec Z → list (Z * Z) :=
  search_row_by dot.

Definition dimension_ok (d : Z) (rows : list (vec Z)) : bool :=
  forallb (λ row, Z.of_nat (length row) =? d) rows.

Definition search_by (product : vec Z → vec Z → Z)
    (d : Z) (stored queries : list (vec Z)) (k : Z)
  : exn + list (list (Z * Z)) :=
  if (0 <? k) && dimension_ok d queries
  then inr (map (search_row_by product stored k) queries)
  else inl AssertionError.

Definition search : Z → list (vec Z) → list (vec Z) → Z → exn + list (list (Z * Z)) :=
  search_by dot.

(** The mock services; its scores being integers, the threshold [1]
    selects what [0.7] selects. *)
Definition services : Services Z :=
  {| embeddings_create := λ _ _ input, inr (map embed_text input);
     chat_completions_create := λ _ _ _ user_content,
       inr [Some ("Answer to: " +:+ user_content)];
     normalize_row := map Z.sgn;
     index_add_check := λ d rows,
       if dimension_ok d rows then None else Some AssertionError;
     index_search := search;
     float_ge := Z.geb;
     to_float32 := round_float32;
     format_2f := λ z, pretty z +:+ ".00";
     str_float := λ z, pretty z +:+ ".0";
     default_score_threshold := 1 |}.

(** The same with the embedding service unreachable. *)
Definition offline : Services Z :=
  {| embeddings_create := λ _ _ _, inl APIConnectionError;
     chat_completions_create := chat_completions_create services;
     normalize_row := normalize_row services;
     index_add_check := index_add_check services;
     index_search := index_search services;
     float_ge := float_ge services;
     to_float32 := to_float32 services;
     format_2f := format_2f services;
     str_float := str_float services;
     default_score_threshold := default_score_threshold services |}.

(** The same with an embedding service that answers one row too many. *)
Definition talkative : Services Z :=
  {| embeddings_create := λ _ _ input, inr ([0; 0; 1] :: map embed_text input);
     chat_completions_create := chat_completions_create services;
     normalize_row := normalize_row services;
     index_add_check := index_add_check services;
     index_search := index_search services;
     float_ge := float_ge services;
     to_float32 := to_float32 services;
     format_2f := format_2f services;
     str_float := str_float services;
     default_score_threshold := default_score_threshold services |}.

(** *** The same services on doubles

    Here a float is written as the multiple of [2 ^ -53] it is: [one] is
    [1.0], and every double between [0.5] and [2] is such a multiple.  The
    rows are the one-hot rows again, on which normalisation and inner
    products are exact. *)







Definition doc (text source : string) (chunk_id : Z) : Document Z :=
  {| page_content := text;
     metadata := {[ "source" := VStr source; "chunk_id" := VInt chunk_id ]} |}.

Definition fresh : world Z := {| self := init 3; calls := [] |}.

Definition chunks : list (Document Z) :=
  [doc "AML policy requires X" "docA" 0; doc "KYC requires Y" "docA" 1].

(** The world after [add_documents(chunks)] on a new store. *)
Definition loaded : world Z := (add_documents services chunks fresh).2.

(** A chunk without any keyword. *)
Definition report : Document Z := doc "Quarterly report" "docB" 0.


(** What a run of [similarity_search] shows: the [score] and [doc_id] of
    every result, or nothing when it raised. *)
Definition shown (r : exn + list (dict Z)) : option (list (option Z * option Z)) :=
  match r with
  | inr results => Some (map (λ d, (score_of d, doc_id_of d)) results)
  | inl _ => None
  end.

(** Whether a run returned. *)
Definition returned {A} (r : exn + A) : bool :=
  match r with inr _ => true | inl _ => false end.

(** A client session on one store. *)
Definition session : list (op (float := Z)) :=
  [AddDocuments chunks; Clear; AddDocuments chunks;
   SimilaritySearch "KYC" 1 0; AddDocuments chunks].

End Mock.

(** * Theorems *)

Section Theorems.

Context {float : Type} `{!EqDecision float, !Countable float}.
Context (E : Services float).

Implicit Types (w : world float) (s : VectorStore float).
Implicit Types (docs : list (Document float)) (d : dict float).

(** ** The metadata loop *)

Lemma length_appended_metadata n c i docs :
  length (appended_metadata n c i docs) = length docs.
Proof.
  revert n i. induction docs as [|doc rest IH]; intros n i; simpl; [done|].
  by rewrite IH.
Qed.

Lemma lookup_appended_metadata n c i docs (j : nat) doc :
  docs !! j = Some doc →
  appended_metadata n c i docs !! j =
    Some (<["vector_index" := VInt (Z.of_nat (n + j) + (i + Z.of_nat j))]>
            (<["doc_id" := VInt (c + i + Z.of_nat j)]>
               (<["content" := VStr (page_content doc)]> (metadata doc)))).
Proof.
  revert n i j. induction docs as [|doc0 rest IH]; intros n i j Hj; [done|].
  destruct j as [|j]; simpl in *.
  - injection Hj as ->. repeat (f_equal; try lia).
  - rewrite (IH _ _ _ Hj). repeat (f_equal; try lia).
Qed.

Lemma store_all_eq i docs dim idx ds c m log :
  store_all i docs
    {| self := Build_VectorStore dim idx ds c m; calls := log |} =
  (inr tt,
   {| self := Build_VectorStore dim idx
                (ds ++ appended_metadata (length ds) c i docs) c m;
      calls := log |}).
Proof.
  revert i ds. induction docs as [|doc rest IH]; intros i ds; simpl.
  - by rewrite app_nil_r.
  - unfold bind, store_metadata, get_self, put_self; simpl.
    rewrite IH, length_app, <- app_assoc; simpl.
    by rewrite Nat.add_1_r.
Qed.

(** ** [add_documents], case by case *)

Lemma add_documents_eq doc rest dim idx ds c m log :
  let docs := doc :: rest in
  let texts := map page_content docs in
  let w0 := {| self := Build_VectorStore dim idx ds c m; calls := log |} in
  let w1 := {| self := Build_VectorStore dim idx ds c m;
               calls := log ++ [EmbeddingsCreate m texts] |} in
  add_documents E docs w0 =
  match embeddings_create E log m texts with
  | inl e => (inl (add_error (embedding_error e)), w1)
  | inr rows =>
      match index_add_check E dim (normalize_L2 E rows) with
      | Some e => (inl (add_error e), w1)
      | None =>
          (inr tt,
           {| self := Build_VectorStore dim
                        (idx ++ normalize_L2 E rows)
                        (ds ++ appended_metadata (length ds) c 0 docs)
                        (c + Z.of_nat (length docs)) m;
              calls := log ++ [EmbeddingsCreate m texts] |})
      end
  end.
Proof.
  intros docs texts w0 w1. subst docs texts w0 w1.
  unfold add_documents, try_except, bind, _get_embeddings, try_except,
    bind, openai_embeddings, ret, raise; simpl.
  destruct (embeddings_create E log m _) as [e|rows]; simpl; [done|].
  unfold index_add, bind, get_self, put_self, raise; simpl.
  destruct (index_add_check E dim (normalize_L2 E rows)) as [e|]; simpl; [done|].
  rewrite (store_all_eq 1 rest); simpl.
  unfold bump_document_count, bind, get_self, put_self; simpl.
  by rewrite length_app, Nat.add_1_r, <- app_assoc.
Qed.

(** A call of [add_documents] that raises leaves the object as it was. *)
Lemma add_documents_raises docs w e w' :
  add_documents E docs w = (inl e, w') →
  self w' = self w ∧ exn_class e = "Exception".
Proof.
  destruct w as [[dim idx ds c m] log], docs as [|doc rest]; [done|].
  rewrite add_documents_eq.
  destruct (embeddings_create _ _ _ _) as [e0|rows].
  - by intros [= <- <-].
  - destruct (index_add_check _ _ _) as [e0|]; [|done].
    by intros [= <- <-].
Qed.

(** What a call of [add_documents] that returns has done. *)
Lemma add_documents_returns docs w w' :
  add_documents E docs w = (inr tt, w') →
  docs = [] ∧ w' = w ∨
  ∃ rows,
    embeddings_create E (calls w) (embedding_model (self w))
                      (map page_content docs) = inr rows ∧
    index (self w') = index (self w) ++ normalize_L2 E rows ∧
    documents (self w') =
      documents (self w) ++
      appended_metadata (length (documents (self w)))
                        (document_count (self w)) 0 docs ∧
    document_count (self w') = document_count (self w) + Z.of_nat (length docs) ∧
    embedding_dimension (self w') = embedding_dimension (self w) ∧
    embedding_model (self w') = embedding_model (self w).
Proof.
  destruct w as [[dim idx ds c m] log], docs as [|doc rest].
  - intros [= <-]. by left.
  - rewrite add_documents_eq.
    destruct (embeddings_create _ _ _ _) as [e0|rows] eqn:Hrows; [done|].
    destruct (index_add_check _ _ _) as [e0|]; [done|].
    intros [= <-]. right. exists rows. by simpl.
Qed.

(** ** [similarity_search], case by case *)

Lemma collect_results_returns thr hits acc w rs w' :
  collect_results E thr hits acc w = (inr rs, w') →
  w' = w ∧
  ∃ new, rs = acc ++ new ∧ Forall2 (joined (self w)) (filter (passes E thr) hits) new.
Proof.
  revert acc. induction hits as [|[score idx] rest IH]; intros acc; simpl.
  - intros [= <- <-]. split; [done|]. exists []. by rewrite app_nil_r.
  - rewrite filter_cons.
    destruct (decide (passes E thr (score, idx))) as [[Hidx Hge]|Hno]; simpl in *.
    + apply Z.leb_le in Hidx. rewrite Hidx, Hge; simpl.
      unfold bind, get_self; simpl.
      destruct (documents (self w) !! Z.to_nat idx) as [d|] eqn:Hd; [|done].
      intros Hrun. destruct (IH _ Hrun) as (-> & new & -> & Hnew).
      split; [done|]. exists (<["score" := VFloat score]> d :: new).
      rewrite <- app_assoc. split; [done|].
      constructor; [|done]. by exists d.
    + assert ((0 <=? idx) && float_ge E score (to_float32 E thr) = false) as ->.
      { apply not_true_is_false. intros [Hidx Hge]%andb_true_iff.
        apply Hno. split; [by apply Z.leb_le|done]. }
      intros Hrun. destruct (IH _ Hrun) as (-> & new & -> & Hnew).
      split; [done|]. by exists new.
Qed.

Lemma collect_results_world thr hits acc w :
  (collect_results E thr hits acc w).2 = w.
Proof.
  revert acc. induction hits as [|[score idx] rest IH]; intros acc; simpl; [done|].
  destruct ((0 <=? idx) && float_ge E score (to_float32 E thr)); [|done].
  unfold bind, get_self; simpl.
  by destruct (documents (self w) !! Z.to_nat idx).
Qed.

(** The world a call of [similarity_search] leaves: the object untouched,
    and one embedding call logged unless the index is empty. *)
Lemma similarity_search_world q k thr w :
  let w' := (similarity_search E q k thr w).2 in
  self w' = self w ∧
  calls w' =
    if ntotal (self w) =? 0 then calls w
    else calls w ++ [EmbeddingsCreate (embedding_model (self w)) [q]].
Proof.
  unfold similarity_search, bind, get_self; simpl.
  destruct (ntotal (self w) =? 0); [done|].
  unfold try_except, bind, _get_embeddings, try_except, bind,
    openai_embeddings, ret, raise, get_self; simpl.
  destruct (embeddings_create E _ _ _) as [e|rows]; simpl; [done|].
  unfold faiss_search, bind, get_self, raise, ret; simpl.
  destruct (index_search E _ _ _ _) as [e|[|hits rest]]; simpl; [done..|].
  match goal with
  | |- context [collect_results E thr hits [] ?w1] =>
      pose proof (collect_results_world thr hits [] w1) as Hw;
      destruct (collect_results E thr hits [] w1) as [[e|rs] w2]
  end; simpl in *; by subst.
Qed.

(** What a call of [similarity_search] that returns has done. *)
Lemma similarity_search_returns q k thr w rs w' :
  similarity_search E q k thr w = (inr rs, w') →
  ntotal (self w) = 0 ∧ rs = [] ∧ w' = w ∨
  ntotal (self w) ≠ 0 ∧
  Forall2 (joined (self w)) (filter (passes E thr) (candidates E q k w)) rs ∧
  ∃ rows rest,
    embeddings_create E (calls w) (embedding_model (self w)) [q] = inr rows ∧
    index_search E (embedding_dimension (self w)) (index (self w))
                 (normalize_L2 E rows) (Z.min k (ntotal (self w)))
      = inr (candidates E q k w :: rest).
Proof.
  unfold similarity_search, candidates, bind at 1, get_self; simpl.
  destruct (ntotal (self w) =? 0) eqn:Hn.
  - intros [= <- <-]. left. split; [lia|done].
  - intros Hrun. right. split; [lia|]. revert Hrun.
    unfold try_except, bind, _get_embeddings, try_except, bind,
      openai_embeddings, ret, raise, get_self; simpl.
    destruct (embeddings_create E _ _ _) as [e|rows]; simpl; [done|].
    unfold faiss_search, bind, get_self, raise, ret; simpl.
    destruct (index_search E _ _ _ _) as [e|[|hits rest]] eqn:Hs; simpl; [done..|].
    match goal with
    | |- context [collect_results E thr hits [] ?w1] =>
        destruct (collect_results E thr hits [] w1) as [[e|rs'] w2] eqn:Hc
    end; [done|].
    intros [= <- <-].
    apply collect_results_returns in Hc as (-> & new & -> & Hnew); simpl in *.
    split; [done|]. by exists rows, rest.
Qed.

(** A call of [similarity_search] that raises raises an [Exception]. *)
Lemma similarity_search_raises q k thr w e w' :
  similarity_search E q k thr w = (inl e, w') → exn_class e = "Exception".
Proof.
  unfold similarity_search, bind at 1, get_self; simpl.
  destruct (ntotal (self w) =? 0); [done|].
  unfold try_except.
  match goal with |- context [match ?m w with _ => _ end] => destruct (m w) as [[e0|rs] w1] end.
  - by intros [= <- <-].
  - done.
Qed.

(** ** The invariants of the store *)

Lemma clear_eq w :
  clear w =
  (inr tt,
   {| self := Build_VectorStore (embedding_dimension (self w)) [] [] 0
                                (embedding_model (self w));
      calls := calls w |}).
Proof. done. Qed.

Lemma positions_ok_init dim : positions_ok (init (float := float) dim).
Proof. split; [done|]. by intros i d. Qed.

Lemma lockstep_init dim : lockstep (init (float := float) dim).
Proof. done. Qed.

Lemma positions_ok_add_documents docs w :
  positions_ok (self w) → positions_ok (self (add_documents E docs w).2).
Proof.
  intros [Hcount Hids].
  destruct (add_documents E docs w) as [[e|[]] w'] eqn:Hrun; simpl.
  - apply add_documents_raises in Hrun as [-> _]. by split.
  - apply add_documents_returns in Hrun
      as [[_ ->]|(rows & _ & _ & Hdocs & Hc & _)]; [by split|].
    split.
    + rewrite Hc, Hdocs, length_app, length_appended_metadata. lia.
    + intros i d. rewrite Hdocs. intros Hi.
      apply lookup_app_Some in Hi as [Hi|[Hlen Hi]]; [by eapply Hids|].
      destruct (docs !! (i - length (documents (self w)))%nat) as [doc|] eqn:Hdoc.
      * rewrite (lookup_appended_metadata _ _ _ _ _ _ Hdoc) in Hi.
        injection Hi as <-.
        rewrite lookup_insert_ne by done. rewrite lookup_insert_eq.
        do 2 f_equal. lia.
      * apply lookup_ge_None in Hdoc. apply lookup_lt_Some in Hi.
        rewrite length_appended_metadata in Hi. lia.
Qed.

Lemma lockstep_add_documents docs w :
  embedder_contract E →
  lockstep (self w) → lockstep (self (add_documents E docs w).2).
Proof.
  intros Hembed Hlock. unfold lockstep in *.
  destruct (add_documents E docs w) as [[e|[]] w'] eqn:Hrun; simpl.
  - by apply add_documents_raises in Hrun as [-> _].
  - apply add_documents_returns in Hrun
      as [[_ ->]|(rows & Hrows & Hidx & Hdocs & _)]; [done|].
    apply Hembed in Hrows. unfold normalize_L2 in Hidx.
    rewrite Hidx, Hdocs, !length_app, length_map, length_appended_metadata,
      Hrows, length_map.
    by rewrite Hlock.
Qed.

Lemma step_invariant w o :
  positions_ok (self w) → positions_ok (self (step E w o)) ∧
  (embedder_contract E → lockstep (self w) → lockstep (self (step E w o))).
Proof.
  intros Hpos. destruct o as [docs| |q k thr]; simpl.
  - split; [by apply positions_ok_add_documents|].
    intros. by apply lockstep_add_documents.
  - split; [|done]. split; [done|]. by intros i d.
  - destruct (similarity_search_world q k thr w) as [-> _]. by split.
Qed.

Lemma run_invariant ops w :
  positions_ok (self w) → positions_ok (self (run E ops w)) ∧
  (embedder_contract E → lockstep (self w) → lockstep (self (run E ops w))).
Proof.
  revert w. induction ops as [|o ops IH]; intros w Hpos; simpl; [by split|].
  destruct (step_invariant w o Hpos) as [Hpos' Hlock'].
  destruct (IH _ Hpos') as [Hpos'' Hlock'']. split; [done|].
  intros Hembed Hlock. apply Hlock''; [done|]. by apply Hlock'.
Qed.

(** ** Results against the hits they come from *)

Lemma joined_score s h r : joined s h r → score_of r = Some h.1.
Proof. intros (d & _ & ->). unfold score_of. by rewrite lookup_insert_eq. Qed.

Lemma passes_valid thr h : passes E thr h → valid_hit h.
Proof. by intros [? _]. Qed.

Lemma filter_passes thr (hits : list (float * Z)) :
  filter (passes E thr) hits =
  filter (λ h, float_ge E h.1 (to_float32 E thr) = true) (filter valid_hit hits).
Proof.
  induction hits as [|h hits IH]; [done|].
  rewrite !filter_cons.
  destruct (decide (valid_hit h)) as [Hv|Hv].
  - rewrite filter_cons.
    destruct (decide (float_ge E h.1 (to_float32 E thr) = true)) as [Hge|Hge].
    + rewrite decide_True by done. by rewrite IH.
    + rewrite decide_False by (by intros [_ ?]). done.
  - rewrite decide_False by (by intros [? _]). done.
Qed.

Lemma StronglySorted_filter {A} (R : relation A) (P : A → Prop)
    `{!∀ x, Decision (P x)} (l : list A) :
  StronglySorted R l → StronglySorted R (filter P l).
Proof.
  induction 1 as [|x l Hl IH Hx]; [constructor|].
  rewrite filter_cons. destruct (decide (P x)); [|done].
  constructor; [done|].
  apply Forall_forall. intros y [_ Hy]%list_elem_of_filter.
  by apply (proj1 (Forall_forall _ _) Hx).
Qed.

Lemma results_score_ranked s (hits : list (float * Z)) rs :
  StronglySorted (score_ranked E) hits → Forall2 (joined s) hits rs →
  StronglySorted (result_score_ranked E) rs.
Proof.
  intros Hsorted Hjoin. revert Hsorted.
  induction Hjoin as [|h r hits rs Hhr Hrest IH]; intros Hsorted; [constructor|].
  apply StronglySorted_inv in Hsorted as [Hsorted Hhead].
  constructor; [by apply IH|].
  pose proof (joined_score _ _ _ Hhr) as Hs.
  clear IH Hsorted. induction Hrest as [|h' r' hits rs Hhr' Hrest IH];
    [constructor|].
  apply Forall_cons in Hhead as [Hrank Hhead].
  constructor; [|by apply IH].
  exists h.1, h'.1. split; [done|]. split; [by eapply joined_score|done].
Qed.

(** ** The claims *)


(** C2, as the code has it.  On a store that is not empty, when the
    index search keeps its contract, the sequence [similarity_search]
    returns has at most [min(k, ntotal)] entries, is ordered by
    non-increasing score, and keeps the order of the row the index search
    returned: results of equal score come in the order the index gives
    them, which need not be that of insertion. *)
Theorem similarity_search_ranked q k thr w results w' :
  faiss_contract E →
  ntotal (self w) ≠ 0 →
  similarity_search E q k thr w = (inr results, w') →
  Z.of_nat (length results) ≤ Z.min k (ntotal (self w)) ∧
  StronglySorted (result_score_ranked E) results ∧
  Forall2 (joined (self w)) (filter (passes E thr) (candidates E q k w)) results.
Proof.
  intros Hfaiss Hn
    [(Hn' & _)|(_ & Hjoin & rows & rest & _ & Hsearch)]%similarity_search_returns;
    [done|].
  apply Hfaiss, Forall_cons in Hsearch as [[Hlen Hsorted] _].
  split; [|split; [|done]].
  - rewrite <- (Forall2_length _ _ _ Hjoin), <- Hlen.
    apply inj_le, length_filter.
  - eapply results_score_ranked; [|done].
    rewrite filter_passes. by apply StronglySorted_filter.
Qed.

(** C3, as the code has it.  With an embedding service that answers one
    embedding per text, which the code does not check: after every
    sequence of [add_documents], [clear] and [similarity_search] calls on
    a new store, the index holds as many vectors as [documents] holds
    metadata records, and every position below that number holds exactly
    one (vector, metadata) pair, whose metadata carries that position as
    its [doc_id]. *)
Theorem lockstep_invariant ops dim log :
  embedder_contract E →
  let s := self (run E ops {| self := init dim; calls := log |}) in
  length (index s) = length (documents s) ∧
  ∀ i : nat, (i < length (index s))%nat →
    exists ! p : vec float * dict float,
      index s !! i = Some p.1 ∧ documents s !! i = Some p.2 ∧
      p.2 !! "doc_id" = Some (VInt (Z.of_nat i)).
Proof.
  intros Hembed s.
  destruct (run_invariant ops {| self := init dim; calls := log |}
              (positions_ok_init dim)) as [[_ Hids] Hlock].
  specialize (Hlock Hembed (lockstep_init dim)). fold s in Hids, Hlock.
  split; [done|]. intros i Hi.
  destruct (lookup_lt_is_Some_2 (index s) i Hi) as [v Hv].
  destruct (lookup_lt_is_Some_2 (documents s) i) as [d Hd].
  { unfold lockstep in Hlock. lia. }
  exists (v, d). split; [by eauto|].
  intros [v' d'] (Hv' & Hd' & _); simpl in *. congruence.
Qed.

(** C4. A call of [add_documents] that raises, whatever the reason,
    leaves the object as it was before the call: index, metadata list and
    document count are unchanged. *)
Theorem add_documents_atomic docs w e w' :
  add_documents E docs w = (inl e, w') → self w' = self w.
Proof. intros Hrun. by apply add_documents_raises in Hrun as [? _]. Qed.

Lemma similarity_search_empty_index q k thr w :
  index (self w) = [] → similarity_search E q k thr w = (inr [], w).
Proof.
  intros Hidx. unfold similarity_search, bind, get_self, ntotal; simpl.
  by rewrite Hidx.
Qed.

(** C5. On a store just constructed or just cleared, [similarity_search]
    returns the empty list for every query, [k] and threshold, without
    raising and without any external call (the world is unchanged). *)
Theorem similarity_search_empty_store :
  (∀ dim log q k thr,
     similarity_search E q k thr {| self := init dim; calls := log |} =
     (inr [], {| self := init dim; calls := log |})) ∧
  (∀ w q k thr,
     similarity_search E q k thr (clear w).2 = (inr [], (clear w).2)).
Proof. split; intros; by apply similarity_search_empty_index. Qed.

(** C6, as the code has it.  Neither method checks for a zero norm or
    raises [DegenerateVectorError]: every exception they raise is a plain
    [Exception] and leaves the object unchanged; and whatever rows the
    embedding step returns, all-zero ones included, once the index accepts
    them [add_documents] appends their [normalize_L2] images and returns. *)
Theorem degenerate_vector_unchecked :
  (∀ docs w e w',
     add_documents E docs w = (inl e, w') →
     exn_class e = "Exception" ∧ self w' = self w) ∧
  (∀ q k thr w e w',
     similarity_search E q k thr w = (inl e, w') →
     exn_class e = "Exception" ∧ self w' = self w) ∧
  (∀ doc rest w rows,
     embeddings_create E (calls w) (embedding_model (self w))
                       (map page_content (doc :: rest)) = inr rows →
     index_add_check E (embedding_dimension (self w)) (normalize_L2 E rows) = None →
     ∃ w', add_documents E (doc :: rest) w = (inr tt, w') ∧
           index (self w') = index (self w) ++ normalize_L2 E rows).
Proof.
  split; [|split].
  - intros docs w e w' Hrun. by apply add_documents_raises in Hrun as [? ?].
  - intros q k thr w e w' Hrun. split; [by eapply similarity_search_raises|].
    destruct (similarity_search_world q k thr w) as [Hself _].
    by rewrite Hrun in Hself.
  - intros doc rest [[dim idx ds c m] log] rows Hrows Hcheck.
    cbn [self calls embedding_model embedding_dimension index] in *.
    rewrite add_documents_eq. cbv zeta. rewrite Hrows, Hcheck. by eexists.
Qed.

(** C7, as the code has it.  [similarity_search] validates nothing: on an
    empty index it returns the empty list for every query and every [k],
    the empty string and [k <= 0] included, with no external call; on any
    other index it issues the embedding call for the query first, whatever
    the query and [k] are, so that a call that raises has made it. *)
Theorem similarity_search_unvalidated q k thr w :
  (ntotal (self w) = 0 → similarity_search E q k thr w = (inr [], w)) ∧
  (ntotal (self w) ≠ 0 →
   calls (similarity_search E q k thr w).2 =
   calls w ++ [EmbeddingsCreate (embedding_model (self w)) [q]]) ∧
  (∀ e w', similarity_search E q k thr w = (inl e, w') →
           calls w' = calls w ++ [EmbeddingsCreate (embedding_model (self w)) [q]]).
Proof.
  destruct (similarity_search_world q k thr w) as [_ Hcalls].
  split; [|split].
  - intros Hn. apply similarity_search_empty_index.
    unfold ntotal in Hn. by destruct (index (self w)).
  - intros Hn. rewrite Hcalls. by destruct (Z.eqb_spec (ntotal (self w)) 0).
  - intros e w' Hrun. rewrite Hrun in Hcalls; simpl in Hcalls.
    destruct (Z.eqb_spec (ntotal (self w)) 0) as [Hn|Hn]; [|done].
    rewrite similarity_search_empty_index in Hrun; [done|].
    unfold ntotal in Hn. by destruct (index (self w)).
Qed.

(** C8. [clear] is idempotent: a second [clear] changes nothing, the
    statistics after one or two calls are the empty ones (no chunk, no
    vector, no source), and the records a following [add_documents] stores
    are numbered from 0 again. *)
Theorem clear_idempotent w :
  let w1 := (clear w).2 in
  clear w1 = (inr tt, w1) ∧
  get_statistics (self w1) =
    {| total_documents := 0; total_chunks := 0; index_size := 0;
       stat_embedding_dimension := embedding_dimension (self w);
       sources := ∅ |} ∧
  get_statistics (self (clear w1).2) = get_statistics (self w1) ∧
  ∀ docs w2, add_documents E docs w1 = (inr tt, w2) →
    length (documents (self w2)) = length docs ∧
    ∀ (i : nat) doc, docs !! i = Some doc →
      ∃ d, documents (self w2) !! i = Some d ∧
           d !! "doc_id" = Some (VInt (Z.of_nat i)) ∧
           d !! "content" = Some (VStr (page_content doc)).
Proof.
  intros w1. split; [done|]. split; [done|]. split; [done|].
  intros docs w2 [[-> ->]|(rows & _ & _ & Hdocs & _)]%add_documents_returns.
  { split; [done|]. by intros i doc. }
  simpl in Hdocs. rewrite Hdocs. split; [apply length_appended_metadata|].
  intros i doc Hi. eexists. split; [by apply lookup_appended_metadata|].
  split.
  - rewrite lookup_insert_ne by done. rewrite lookup_insert_eq.
    do 2 f_equal; lia.
  - do 2 (rewrite lookup_insert_ne by done). by rewrite lookup_insert_eq.
Qed.

(** C9. [add_documents([])] is a no-op: it returns without raising, makes
    no external call and leaves the object, hence its statistics,
    unchanged. *)
Theorem add_documents_empty_noop w :
  add_documents E [] w = (inr tt, w) ∧
  get_statistics (self (add_documents E [] w).2) = get_statistics (self w).
Proof. done. Qed.

(** ** [get_response] *)



End Theorems.

(** ** The mock environment keeps the contracts *)

Lemma mock_embedder_contract : embedder_contract Mock.services.
Proof. intros log m input rows [= <-]. apply length_map. Qed.

#[local] Instance mock_before_total : Total Mock.before.
Proof. intros [s1 p1] [s2 p2]. unfold Mock.before; simpl. lia. Qed.

#[local] Instance mock_before_trans : Transitive Mock.before.
Proof. intros [s1 p1] [s2 p2] [s3 p3]. unfold Mock.before; simpl. lia. Qed.

Lemma mock_labels (product : vec Z → vec Z → Z) (q : vec Z) (stored : list (vec Z)) :
  (imap (λ i v, (product q v, Z.of_nat i)) stored).*2 =
  Z.of_nat <$> seq 0 (length stored).
Proof.
  apply list_eq. intros i.
  rewrite !list_lookup_fmap, list_lookup_imap.
  destruct (stored !! i) as [v|] eqn:Hv; simpl.
  - rewrite lookup_seq_lt by (by eapply lookup_lt_Some). done.
  - rewrite lookup_seq_ge by (by apply lookup_ge_None). done.
Qed.

Lemma mock_score_ranked_of_before (l : list (Z * Z)) :
  StronglySorted Mock.before l → StronglySorted (score_ranked Mock.services) l.
Proof.
  induction 1 as [|[s p] l Hl IH Hhead]; constructor; [done|].
  eapply Forall_impl; [exact Hhead|].
  intros [s' p'] Hbefore. unfold Mock.before in Hbefore.
  unfold score_ranked; simpl in *. apply Z.geb_le. lia.
Qed.

Lemma filter_all {A} (P : A → Prop) `{!∀ x, Decision (P x)} (l : list A) :
  Forall P l → filter P l = l.
Proof.
  induction 1 as [|x l Hx Hl IH]; [done|].
  by rewrite filter_cons, decide_True, IH.
Qed.

Lemma filter_none {A} (P : A → Prop) `{!∀ x, Decision (P x)} (l : list A) :
  Forall (λ x, ¬ P x) l → filter P l = [].
Proof.
  induction 1 as [|x l Hx Hl IH]; [done|].
  by rewrite filter_cons, decide_False, IH.
Qed.

Lemma mock_row_ok (product : vec Z → vec Z → Z)
    (stored : list (vec Z)) (k : Z) (q : vec Z) :
  0 < k → row_ok Mock.services k (Mock.search_row_by product stored k q).
Proof.
  intros Hk. unfold Mock.search_row_by.
  set (scored := imap (λ i v, (product q v, Z.of_nat i)) stored).
  set (sorted := merge_sort Mock.before scored).
  assert (StronglySorted (score_ranked Mock.services) sorted) as Hsorted.
  { apply mock_score_ranked_of_before. unfold sorted.
    apply (StronglySorted_merge_sort Mock.before). }
  assert (Forall (valid_hit (float := Z)) sorted) as Hvalid.
  { unfold sorted. rewrite merge_sort_Permutation.
    apply Forall_forall. intros [s p] Hin.
    apply (list_elem_of_fmap_2 snd) in Hin. unfold scored in Hin.
    rewrite mock_labels in Hin.
    apply list_elem_of_fmap in Hin as (i & Hp & _). simpl in Hp.
    unfold valid_hit; simpl. lia. }
  split.
  - rewrite length_app, length_replicate, length_take. lia.
  - rewrite filter_app, (filter_all _ (take _ _)), filter_none, app_nil_r.
    + rewrite <- (take_drop (Z.to_nat k) sorted) in Hsorted.
      by apply StronglySorted_app_1_l in Hsorted.
    + apply Forall_forall. intros h ->%elem_of_replicate_inv.
      unfold valid_hit; simpl. lia.
    + by apply Forall_take.
Qed.

Lemma mock_faiss_contract : faiss_contract Mock.services.
Proof.
  intros d stored queries k rows; simpl. unfold Mock.search, Mock.search_by.
  destruct (Z.ltb_spec 0 k) as [Hk|Hk]; simpl; [|done].
  destruct (Mock.dimension_ok d queries); [|done].
  intros [= <-]. apply Forall_fmap, Forall_forall. intros q _.
  by apply mock_row_ok.
Qed.

(** What [Mock.shown] and [Mock.returned] tell of a run. *)
Lemma shown_results (r : exn + list (dict Z)) l :
  Mock.shown r = Some l →
  ∃ results, r = inr results ∧ map (λ d, (score_of d, doc_id_of d)) results = l.
Proof. destruct r as [e|results]; [done|]. intros [= <-]. by exists results. Qed.

Lemma returned_true {A} (r : exn + A) e : Mock.returned r = true → r ≠ inl e.
Proof. by intros Hr ->. Qed.

Lemma returned_false {A} (r : exn + A) a : Mock.returned r = false → r ≠ inr a.
Proof. by intros Hr ->. Qed.

(** A run on the mock that is supposed to have raised, or returned, did
    not: its outcome is computed. *)
Ltac did_return Hrun :=
  exfalso;
  match type of Hrun with
  | ?run = (inl ?e, _) =>
      apply (returned_true run.1 e); [vm_compute; reflexivity|by rewrite Hrun]
  end.

Ltac did_raise Hrun :=
  exfalso;
  match type of Hrun with
  | ?run = (inr ?a, _) =>
      apply (returned_false run.1 a); [vm_compute; reflexivity|by rewrite Hrun]
  end.

(** The ['vector_index'] entry adds the enumeration counter to a list
    length that has already grown with the loop: the record at position
    [1] of a first batch carries [vector_index = 2], while its [doc_id]
    is [1]. *)
Remark second_chunk_vector_index :
  documents (self Mock.loaded) !! 1%nat ≫= (.!! "doc_id") = Some (VInt 1) ∧
  documents (self Mock.loaded) !! 1%nat ≫= (.!! "vector_index") = Some (VInt 2).
Proof. split; vm_compute; reflexivity. Qed.

(** ** The claims on the mock environment *)



(** C2, as stated, fails: two chunks at the same score come back in the
    order of the index, the later position first. *)
Lemma equal_scores_by_descending_position :
  ∃ r1 r0 w',
    similarity_search Mock.services "What does GDPR require?" 5 0 Mock.loaded
      = (inr [r1; r0], w') ∧
    score_of r1 = Some 0 ∧ doc_id_of r1 = Some 1 ∧
    score_of r0 = Some 0 ∧ doc_id_of r0 = Some 0 ∧
    ¬ result_ranked Mock.services r1 r0.
Proof.
  destruct (similarity_search Mock.services "What does GDPR require?" 5 0 Mock.loaded)
    as [r w'] eqn:Hrun.
  assert (Mock.shown r = Some [(Some 0, Some 1); (Some 0, Some 0)]) as Hshown.
  { replace r with
      (similarity_search Mock.services "What does GDPR require?" 5 0 Mock.loaded).1
      by by rewrite Hrun.
    vm_compute. reflexivity. }
  apply shown_results in Hshown as (results & -> & Hmap).
  destruct results as [|r1 [|r0 [|r2 rs]]]; try done.
  simpl in Hmap. injection Hmap as Hs1 Hp1 Hs0 Hp0.
  exists r1, r0, w'. do 5 (split; [done|]).
  intros (s1 & p1 & s0 & p0 & Hs1' & Hp1' & Hs0' & Hp0' & _ & Hties).
  simpl in Hties. assert (s0 = 0 ∧ s1 = 0 ∧ p1 = 1 ∧ p0 = 0) as (-> & -> & -> & ->).
  { repeat split; congruence. }
  specialize (Hties eq_refl). lia.
Qed.

Lemma similarity_search_ranked_witness :
  ∃ results w',
    similarity_search Mock.services "What does AML require?" 5 0 Mock.loaded
      = (inr results, w') ∧
    Z.of_nat (length results) ≤ Z.min 5 (ntotal (self Mock.loaded)) ∧
    StronglySorted (result_score_ranked Mock.services) results.
Proof.
  destruct (similarity_search Mock.services "What does AML require?" 5 0 Mock.loaded)
    as [[e|results] w'] eqn:Hrun.
  { did_return Hrun. }
  exists results, w'. split; [done|].
  assert (ntotal (self Mock.loaded) ≠ 0) as Hn by (vm_compute; discriminate).
  destruct (similarity_search_ranked Mock.services _ _ _ _ _ _
              mock_faiss_contract Hn Hrun) as (Hlen & Hsorted & _).
  by split.
Defined.

(** C3, as stated, fails: when the embedding service answers one
    embedding more than it was sent texts, [add_documents] stores three
    vectors and two records. *)
Lemma lockstep_broken_by_extra_embedding :
  (add_documents Mock.talkative Mock.chunks Mock.fresh).1 = inr tt ∧
  length (index (self (add_documents Mock.talkative Mock.chunks Mock.fresh).2))
    = 3%nat ∧
  length (documents (self (add_documents Mock.talkative Mock.chunks Mock.fresh).2))
    = 2%nat.
Proof. repeat split; vm_compute; reflexivity. Qed.

Lemma lockstep_invariant_witness :
  length (index (self (run Mock.services Mock.session Mock.fresh))) = 4%nat ∧
  length (documents (self (run Mock.services Mock.session Mock.fresh))) = 4%nat ∧
  ∀ i : nat,
    (i < length (index (self (run Mock.services Mock.session Mock.fresh))))%nat →
    exists ! p : vec Z * dict Z,
      index (self (run Mock.services Mock.session Mock.fresh)) !! i = Some p.1 ∧
      documents (self (run Mock.services Mock.session Mock.fresh)) !! i = Some p.2 ∧
      p.2 !! "doc_id" = Some (VInt (Z.of_nat i)).
Proof.
  split; [vm_compute; reflexivity|]. split; [vm_compute; reflexivity|].
  exact (proj2 (lockstep_invariant Mock.services Mock.session 3 []
                  mock_embedder_contract)).
Defined.

Lemma add_documents_atomic_witness :
  ∃ e w',
    add_documents Mock.offline Mock.chunks Mock.loaded = (inl e, w') ∧
    self w' = self Mock.loaded.
Proof.
  destruct (add_documents Mock.offline Mock.chunks Mock.loaded)
    as [[e|[]] w'] eqn:Hrun.
  - exists e, w'. split; [done|].
    exact (add_documents_atomic Mock.offline _ _ _ _ Hrun).
  - did_raise Hrun.
Defined.

(** C6, as stated, fails: a chunk without keyword is embedded as the zero
    row; [add_documents] does not raise but appends the row and the
    record, and a query embedded as the zero row is searched and answered. *)
Lemma degenerate_vector_accepted :
  embeddings_create Mock.services [] "text-embedding-3-small" ["Quarterly report"]
    = inr [[0; 0; 0]] ∧
  (add_documents Mock.services [Mock.report] Mock.fresh).1 = inr tt ∧
  index (self (add_documents Mock.services [Mock.report] Mock.fresh).2)
    = [[0; 0; 0]] ∧
  length (documents (self (add_documents Mock.services [Mock.report] Mock.fresh).2))
    = 1%nat ∧
  ∃ results,
    (similarity_search Mock.services "Quarterly report" 5 0 Mock.loaded).1
      = inr results ∧
    length results = 2%nat.
Proof.
  do 4 (split; [vm_compute; reflexivity|]).
  destruct (shown_results
              (similarity_search Mock.services "Quarterly report" 5 0 Mock.loaded).1
              [(Some 0, Some 1); (Some 0, Some 0)])
    as (results & Hrun & Hmap); [vm_compute; reflexivity|].
  exists results. split; [done|].
  apply (f_equal length) in Hmap. by rewrite length_map in Hmap.
Qed.

Lemma degenerate_vector_unchecked_witness :
  ∃ w', add_documents Mock.services [Mock.report] Mock.loaded = (inr tt, w') ∧
        index (self w') = index (self Mock.loaded) ++ [[0; 0; 0]].
Proof.
  destruct (degenerate_vector_unchecked Mock.services) as (_ & _ & Happend).
  apply (Happend Mock.report [] Mock.loaded [[0; 0; 0]]); vm_compute; reflexivity.
Defined.

(** C7, as stated, fails: with an empty query and [k = 0] the call on a
    new store returns the empty list instead of being rejected, and on a
    loaded store it is rejected only after the embedding call was made. *)
Lemma invalid_input_not_rejected :
  similarity_search Mock.services EmptyString 0 1 Mock.fresh
    = (inr [], Mock.fresh) ∧
  ∃ e w',
    similarity_search Mock.services EmptyString 0 1 Mock.loaded = (inl e, w') ∧
    calls w' =
      calls Mock.loaded ++ [EmbeddingsCreate "text-embedding-3-small" [EmptyString]].
Proof.
  split; [reflexivity|].
  destruct (similarity_search_world Mock.services EmptyString 0 1 Mock.loaded)
    as [_ Hcalls].
  destruct (similarity_search Mock.services EmptyString 0 1 Mock.loaded)
    as [[e|results] w'] eqn:Hrun.
  - exists e, w'. split; [done|]. cbn [snd] in Hcalls. rewrite Hcalls.
    assert ((ntotal (self Mock.loaded) =? 0) = false) as ->
      by (vm_compute; reflexivity).
    assert (embedding_model (self Mock.loaded) = "text-embedding-3-small") as ->
      by (vm_compute; reflexivity).
    done.
  - did_raise Hrun.
Qed.

Lemma similarity_search_unvalidated_witness :
  similarity_search Mock.services EmptyString 0 1 Mock.fresh
    = (inr [], Mock.fresh) ∧
  calls (similarity_search Mock.services EmptyString 0 1 Mock.loaded).2 =
    calls Mock.loaded ++
    [EmbeddingsCreate (embedding_model (self Mock.loaded)) [EmptyString]].
Proof.
  split.
  - apply (similarity_search_unvalidated Mock.services EmptyString 0 1 Mock.fresh).
    vm_compute. reflexivity.
  - apply (similarity_search_unvalidated Mock.services EmptyString 0 1 Mock.loaded).
    vm_compute. discriminate.
Defined.

Lemma clear_idempotent_witness :
  ∃ w2, add_documents Mock.services Mock.chunks (clear Mock.loaded).2
          = (inr tt, w2) ∧
        length (documents (self w2)) = 2%nat ∧
        ∃ d, documents (self w2) !! 1%nat = Some d ∧
             d !! "doc_id" = Some (VInt 1) ∧
             d !! "content" = Some (VStr "KYC requires Y").
Proof.
  destruct (add_documents Mock.services Mock.chunks (clear Mock.loaded).2)
    as [[e|[]] w2] eqn:Hrun.
  { did_return Hrun. }
  exists w2. split; [done|].
  destruct (clear_idempotent Mock.services Mock.loaded) as (_ & _ & _ & Hadd).
  destruct (Hadd _ _ Hrun) as [Hlen Hids]. split; [exact Hlen|].
  exact (Hids 1%nat (Mock.doc "KYC requires Y" "docA" 1) eq_refl).
Defined.

(** * Further properties of the code *)

Section StoreTheorems.

Context {float : Type} `{!EqDecision float, !Countable float}.
Context (E : Services float).

Implicit Types (w : world float) (s : VectorStore float).
Implicit Types (docs : list (Document float)) (d : dict float).

(** ** [add_documents] *)

Lemma content_ok_add_documents docs w :
  content_ok (self w) → content_ok (self (add_documents E docs w).2).
Proof.
  intros Hok.
  destruct (add_documents E docs w) as [[e|[]] w'] eqn:Hrun; simpl.
  - by apply add_documents_raises in Hrun as [-> _].
  - apply add_documents_returns in Hrun
      as [[_ ->]|(rows & _ & _ & Hdocs & _)]; [done|].
    intros i d. rewrite Hdocs. intros Hi.
    apply lookup_app_Some in Hi as [Hi|[Hlen Hi]]; [by eapply Hok|].
    destruct (docs !! (i - length (documents (self w)))%nat) as [doc|] eqn:Hdoc.
    + rewrite (lookup_appended_metadata _ _ _ _ _ _ Hdoc) in Hi.
      injection Hi as <-. exists (page_content doc).
      do 2 (rewrite lookup_insert_ne by done). by rewrite lookup_insert_eq.
    + apply lookup_ge_None in Hdoc. apply lookup_lt_Some in Hi.
      rewrite length_appended_metadata in Hi. lia.
Qed.

Lemma step_frame w o :
  embedding_dimension (self (step E w o)) = embedding_dimension (self w) ∧
  embedding_model (self (step E w o)) = embedding_model (self w) ∧
  (content_ok (self w) → content_ok (self (step E w o))).
Proof.
  destruct o as [docs| |q k thr]; simpl.
  - split; [|split; [|apply content_ok_add_documents]].
    + destruct (add_documents E docs w) as [[e|[]] w'] eqn:Hrun; simpl.
      * by apply add_documents_raises in Hrun as [-> _].
      * by apply add_documents_returns in Hrun as [[_ ->]|(? & _ & _ & _ & _ & ? & _)].
    + destruct (add_documents E docs w) as [[e|[]] w'] eqn:Hrun; simpl.
      * by apply add_documents_raises in Hrun as [-> _].
      * by apply add_documents_returns in Hrun as [[_ ->]|(? & _ & _ & _ & _ & _ & ?)].
  - split; [done|]. split; [done|]. by intros _ i d.
  - by destruct (similarity_search_world E q k thr w) as [-> _].
Qed.

Lemma run_frame ops w :
  embedding_dimension (self (run E ops w)) = embedding_dimension (self w) ∧
  embedding_model (self (run E ops w)) = embedding_model (self w) ∧
  (content_ok (self w) → content_ok (self (run E ops w))).
Proof.
  revert w. induction ops as [|o ops IH]; intros w; simpl; [done|].
  destruct (step_frame w o) as (Hd & Hm & Hc).
  destruct (IH (step E w o)) as (Hd' & Hm' & Hc').
  split; [congruence|]. split; [congruence|]. auto.
Qed.

(** X1. On every store reached from a new one by calls of
    [add_documents], [clear] and [similarity_search], [document_count] is
    the number of metadata records, the record at list position [i]
    carries [doc_id = i] and a string under ['content'], and the
    embedding dimension and model are those of the constructor. *)
Theorem store_invariant ops dim log :
  let s := self (run E ops {| self := init dim; calls := log |}) in
  document_count s = Z.of_nat (length (documents s)) ∧
  embedding_dimension s = dim ∧
  embedding_model s = "text-embedding-3-small" ∧
  ∀ (i : nat) d, documents s !! i = Some d →
    d !! "doc_id" = Some (VInt (Z.of_nat i)) ∧
    ∃ text, d !! "content" = Some (VStr text).
Proof.
  intros s.
  destruct (run_invariant E ops {| self := init dim; calls := log |}
              (positions_ok_init dim)) as [[Hcount Hids] _].
  destruct (run_frame ops {| self := init dim; calls := log |}) as (Hd & Hm & Hc).
  split; [done|]. split; [done|]. split; [done|].
  intros i d Hi. split; [by apply Hids|].
  eapply Hc; [|done]. by intros j d'.
Qed.

(** X2. What a returning [add_documents] stores for the [j]-th document
    of the batch, at list position [len(documents) + j]: a copy of its
    metadata in which ['content'] is the page content, ['doc_id'] is the
    former [document_count] plus [j], and ['vector_index'] is the former
    length plus [2 * j]; every other key is as in the metadata. *)
Theorem add_documents_record docs w w' (j : nat) doc :
  add_documents E docs w = (inr tt, w') →
  docs !! j = Some doc →
  ∃ d,
    documents (self w') !! (length (documents (self w)) + j)%nat = Some d ∧
    d !! "content" = Some (VStr (page_content doc)) ∧
    d !! "doc_id" = Some (VInt (document_count (self w) + Z.of_nat j)) ∧
    d !! "vector_index" =
      Some (VInt (Z.of_nat (length (documents (self w))) + 2 * Z.of_nat j)) ∧
    ∀ key, key ∉ written_keys → d !! key = metadata doc !! key.
Proof.
  intros [[-> ->]|(rows & _ & _ & Hdocs & _)]%add_documents_returns Hj; [done|].
  eexists. split.
  { rewrite Hdocs, lookup_app_r by lia.
    replace (length (documents (self w)) + j - length (documents (self w)))%nat
      with j by lia.
    by apply lookup_appended_metadata. }
  split; [|split; [|split]].
  - do 2 (rewrite lookup_insert_ne by done). by rewrite lookup_insert_eq.
  - rewrite lookup_insert_ne by done. rewrite lookup_insert_eq.
    do 2 f_equal; lia.
  - rewrite lookup_insert_eq. do 2 f_equal; lia.
  - intros key Hkey. unfold written_keys in Hkey.
    rewrite !lookup_insert_ne; [done|set_solver..].
Qed.

(** X3. [add_documents] on a batch that is not empty raises exactly when
    the embedding call raises or the index rejects the normalised rows;
    the message then wraps the cause, twice for a failed embedding call. *)
Theorem add_documents_raises_iff doc rest w e w' :
  let texts := map page_content (doc :: rest) in
  add_documents E (doc :: rest) w = (inl e, w') ↔
  w' = logged (embedding_call w texts) w ∧
  ((∃ e0, embeddings_create E (calls w) (embedding_model (self w)) texts = inl e0 ∧
          e = add_error (embedding_error e0)) ∨
   (∃ rows e0,
      embeddings_create E (calls w) (embedding_model (self w)) texts = inr rows ∧
      index_add_check E (embedding_dimension (self w)) (normalize_L2 E rows) = Some e0 ∧
      e = add_error e0)).
Proof.
  intros texts. destruct w as [[dim idx ds c m] log].
  rewrite add_documents_eq. fold texts.
  unfold logged, embedding_call; cbn [self calls embedding_model embedding_dimension].
  destruct (embeddings_create E log m texts) as [e0|rows].
  - split.
    + intros [= <- <-]. split; [done|]. left. by exists e0.
    + intros [-> [(e1 & [= <-] & ->)|(rows & e1 & [=] & _)]]. done.
  - destruct (index_add_check E dim (normalize_L2 E rows)) as [e0|] eqn:Hcheck.
    + split.
      * intros [= <- <-]. split; [done|]. right. by exists rows, e0.
      * intros [-> [(e1 & [=] & _)|(rows' & e1 & [= <-] & He1 & ->)]].
        rewrite Hcheck in He1. by injection He1 as <-.
    + split; [done|].
      intros [_ [(e1 & [=] & _)|(rows' & e1 & [= <-] & He1 & _)]].
      by rewrite Hcheck in He1.
Qed.

(** X4. Whatever the outcome, [add_documents] on a batch that is not
    empty makes exactly one external call: one embedding request holding
    the page contents of the whole batch, in order. *)
Theorem add_documents_single_call doc rest w :
  calls (add_documents E (doc :: rest) w).2 =
  calls w ++ [EmbeddingsCreate (embedding_model (self w))
                               (map page_content (doc :: rest))].
Proof.
  destruct w as [[dim idx ds c m] log]. rewrite add_documents_eq.
  cbn [self calls embedding_model].
  destruct (embeddings_create E log m _) as [e0|rows]; [done|].
  by destruct (index_add_check E dim (normalize_L2 E rows)).
Qed.

(** X5. [add_documents] only appends: whether it returns or raises, the
    metadata list and the index before the call are prefixes of those
    after it, and [document_count] does not decrease. *)
Theorem add_documents_append_only docs w :
  let w' := (add_documents E docs w).2 in
  documents (self w) `prefix_of` documents (self w') ∧
  index (self w) `prefix_of` index (self w') ∧
  document_count (self w) ≤ document_count (self w').
Proof.
  intros w'. unfold w'.
  destruct (add_documents E docs w) as [[e|[]] w1] eqn:Hrun; simpl.
  - by apply add_documents_raises in Hrun as [-> _].
  - apply add_documents_returns in Hrun
      as [[_ ->]|(rows & _ & Hidx & Hdocs & Hc & _)]; [done|].
    rewrite Hidx, Hdocs, Hc.
    split; [by apply prefix_app_r|]. split; [by apply prefix_app_r|]. lia.
Qed.

End StoreTheorems.

Section SearchTheorems.

Context {float : Type} `{!EqDecision float, !Countable float}.
Context (E : Services float).

Implicit Types (w : world float) (s : VectorStore float).
Implicit Types (docs : list (Document float)) (d : dict float).

(** ** [similarity_search] *)

Lemma collect_results_in_range thr (hits : list (float * Z)) acc w :
  Forall (λ h, passes E thr h → (Z.to_nat h.2 < length (documents (self w)))%nat)
         hits →
  ∃ new, collect_results E thr hits acc w = (inr (acc ++ new), w) ∧
         length new = length (filter (passes E thr) hits).
Proof.
  intros Hrange. revert acc.
  induction Hrange as [|[score idx] rest Hh Hrest IH]; intros acc; simpl.
  - exists []. by rewrite app_nil_r.
  - rewrite filter_cons.
    destruct (decide (passes E thr (score, idx))) as [Hpass|Hno].
    + destruct (lookup_lt_is_Some_2 _ _ (Hh Hpass)) as [d Hd].
      destruct Hpass as [Hidx Hge]; simpl in *.
      apply Z.leb_le in Hidx. rewrite Hidx, Hge; simpl.
      unfold bind, get_self; simpl. rewrite Hd.
      destruct (IH (acc ++ [<["score" := VFloat score]> d])) as (new & -> & Hlen).
      exists (<["score" := VFloat score]> d :: new).
      rewrite <- app_assoc. split; [done|]. simpl. by rewrite Hlen.
    + assert ((0 <=? idx) && float_ge E score (to_float32 E thr) = false) as ->.
      { apply not_true_is_false. intros [Hidx Hge]%andb_true_iff.
        apply Hno. split; [by apply Z.leb_le|done]. }
      apply IH.
Qed.

(** X6. [similarity_search] reads only: whether it returns or raises, the
    object is as before the call; and every result it returns is a stored
    record with the key ['score'] set, so that every other key of a result
    is as stored. *)
Theorem similarity_search_read_only q k thr w :
  self (similarity_search E q k thr w).2 = self w ∧
  ∀ results w', similarity_search E q k thr w = (inr results, w') →
    Forall (λ r, ∃ d score,
                d ∈ documents (self w) ∧ r = <["score" := VFloat score]> d ∧
                ∀ key, key ≠ "score" → r !! key = d !! key)
           results.
Proof.
  split; [by destruct (similarity_search_world E q k thr w)|].
  intros results w'
    [(_ & -> & _)|(_ & Hjoin & _)]%similarity_search_returns; [constructor|].
  apply Forall_forall. intros r [i Hi]%list_elem_of_lookup.
  destruct (Forall2_lookup_r _ _ _ _ _ Hjoin Hi) as (h & _ & d & Hd & ->).
  exists d, h.1. split; [by eapply list_elem_of_lookup_2|]. split; [done|].
  intros key Hkey. by rewrite lookup_insert_ne.
Qed.

(** X7. On an index that is not empty, [similarity_search] returns
    exactly when the embedding call returns, the index search returns a
    row for the query, and every label of that row that passes the filter
    is a position of the metadata list; it then returns one result per
    passing entry. *)
Theorem similarity_search_returns_iff q k thr w :
  ntotal (self w) ≠ 0 →
  (∃ results w', similarity_search E q k thr w = (inr results, w')) ↔
  ∃ rows hits rest,
    embeddings_create E (calls w) (embedding_model (self w)) [q] = inr rows ∧
    index_search E (embedding_dimension (self w)) (index (self w))
                 (normalize_L2 E rows) (Z.min k (ntotal (self w)))
      = inr (hits :: rest) ∧
    Forall (λ h, passes E thr h →
                 (Z.to_nat h.2 < length (documents (self w)))%nat) hits.
Proof.
  intros Hn. split.
  - intros (results & w' & Hrun).
    apply similarity_search_returns in Hrun
      as [(Hn' & _)|(_ & Hjoin & rows & rest & Hrows & Hsearch)]; [done|].
    exists rows, (candidates E q k w), rest. split; [done|]. split; [done|].
    apply Forall_forall. intros h Hin Hpass.
    assert (h ∈ filter (passes E thr) (candidates E q k w)) as Hh
      by by apply list_elem_of_filter.
    apply list_elem_of_lookup in Hh as [i Hi].
    destruct (Forall2_lookup_l _ _ _ _ _ Hjoin Hi) as (r & _ & d & Hd & _).
    by eapply lookup_lt_Some.
  - intros (rows & hits & rest & Hrows & Hsearch & Hrange).
    unfold similarity_search, bind at 1, get_self; simpl.
    destruct (Z.eqb_spec (ntotal (self w)) 0) as [Hz|Hnz]; [done|].
    unfold try_except, bind, _get_embeddings, try_except, bind,
      openai_embeddings, ret, raise, get_self; simpl.
    rewrite Hrows; simpl.
    unfold faiss_search, bind, get_self, raise, ret; simpl.
    rewrite Hsearch; simpl.
    match goal with
    | |- context [collect_results E thr hits [] ?w1] =>
        destruct (collect_results_in_range thr hits [] w1 Hrange) as (new & -> & _)
    end.
    by eexists _, _.
Qed.

(** ** [get_statistics] *)





End SearchTheorems.

Section SourceTheorems.

Context {float : Type} `{!EqDecision float, !Countable float}.
Context (E : Services float).

Implicit Types (w : world float) (s : VectorStore float).
Implicit Types (docs : list (Document float)) (d : dict float).

(** ** [get_document_by_source] *)

Lemma filter_source_appended (src : string) n c i docs :
  Forall2 (λ doc d, d !! "content" = Some (VStr (page_content doc)) ∧
                    d !! "source" = Some (VStr src))
    (filter (λ doc, metadata doc !! "source" = Some (VStr src)) docs)
    (filter (λ d, d !! "source" = Some (VStr src)) (appended_metadata n c i docs)).
Proof.
  revert n i. induction docs as [|doc rest IH]; intros n i; simpl; [constructor|].
  rewrite !filter_cons.
  rewrite !(lookup_insert_ne _ _ "source") by done.
  destruct (decide (metadata doc !! "source" = Some (VStr src))) as [Hsrc|Hsrc];
    [|apply IH].
  constructor; [|apply IH]. split; [|by rewrite !lookup_insert_ne by done].
  do 2 (rewrite lookup_insert_ne by done). by rewrite lookup_insert_eq.
Qed.

(** X8. After a returning [add_documents], the chunks of a source are
    those it had before, followed by one record for each document of the
    batch whose metadata names that source, in the order of the batch,
    each with the page content of its document. *)
Theorem get_document_by_source_add_documents (src : string) docs w w' :
  add_documents E docs w = (inr tt, w') →
  ∃ new,
    get_document_by_source src (self w') = get_document_by_source src (self w) ++ new ∧
    Forall2 (λ doc d, d !! "content" = Some (VStr (page_content doc)) ∧
                      d !! "source" = Some (VStr src))
      (filter (λ doc, metadata doc !! "source" = Some (VStr src)) docs) new.
Proof.
  intros [[-> ->]|(rows & _ & _ & Hdocs & _)]%add_documents_returns.
  { exists []. by rewrite app_nil_r. }
  unfold get_document_by_source. rewrite Hdocs, filter_app.
  eexists. split; [done|]. apply filter_source_appended.
Qed.


End SourceTheorems.

(** ** Strings *)

Lemma length_append (a b : string) :
  String.length (a +:+ b) = (String.length a + String.length b)%nat.
Proof. induction a as [|c a IH]; simpl; [done|]. by rewrite IH. Qed.

Lemma length_substring_0 (n : nat) (text : string) :
  String.length (String.substring 0 n text) = (n `min` String.length text)%nat.
Proof.
  revert n. induction text as [|c text IH]; intros [|n]; simpl; try done.
  by rewrite IH.
Qed.

Lemma prefix_substring_0 (n : nat) (text : string) :
  String.prefix (String.substring 0 n text) text = true.
Proof.
  revert n. induction text as [|c text IH]; intros [|n]; simpl; try done.
  destruct (Ascii.ascii_dec c c); [apply IH|done].
Qed.

Section PipelineTheorems.

Context {float : Type} `{!EqDecision float, !Countable float}.
Context (E : Services float).

Implicit Types (w : world float) (s : VectorStore float).
Implicit Types (docs : list (dict float)) (d : dict float).

(** ** [_prepare_context] and [_format_sources] *)

Lemma context_parts_returns_iff i docs :
  (∃ parts, context_parts E i docs = inr parts) ↔
  Forall (λ d, ∀ text, get d "score" (VInt 0) ≠ VStr text) docs.
Proof.
  revert i. induction docs as [|d rest IH]; intros i; simpl.
  - split; [constructor|]. by eexists.
  - destruct (get d "score" (VInt 0)) as [text|z|f] eqn:Hscore; simpl.
    + split; [by intros [? ?]|].
      intros [Hd _]%Forall_cons. rewrite Hscore in Hd. by destruct (Hd text).
    + destruct (context_parts E (i + 1) rest) as [e|parts] eqn:Hrest.
      * split; [by intros [? ?]|]. intros [_ Hr]%Forall_cons.
        apply (IH (i + 1)) in Hr as [parts Hparts]. congruence.
      * split; [|by eexists]. intros _.
        constructor; [by intros text; rewrite Hscore|].
        apply (IH (i + 1)). by eexists.
    + destruct (context_parts E (i + 1) rest) as [e|parts] eqn:Hrest.
      * split; [by intros [? ?]|]. intros [_ Hr]%Forall_cons.
        apply (IH (i + 1)) in Hr as [parts Hparts]. congruence.
      * split; [|by eexists]. intros _.
        constructor; [by intros text; rewrite Hscore|].
        apply (IH (i + 1)). by eexists.
Qed.


(** X12. What [_format_sources] returns when it returns: one entry per
    record, in order, with the five keys of the source; ['content'] is the
    content itself when it has at most 500 characters, and its first 500
    characters followed by ["..."], 503 characters in all, when it is
    longer; ['document'] and ['score'] are those of the record, with
    their defaults. *)
Theorem format_sources_entries docs sources :
  _format_sources docs = inr sources →
  Forall2 (λ d source,
    ∃ text shown,
      get d "content" (VStr EmptyString) = VStr text ∧
      source !! "content" = Some (VStr shown) ∧
      source !! "document" = Some (get d "source" (VStr "Unknown Document")) ∧
      source !! "score" = Some (get d "score" (VInt 0)) ∧
      dom source = {[ "document"; "content"; "score"; "chunk_id"; "file_type" ]} ∧
      ((String.length text ≤ 500)%nat → shown = text) ∧
      ((500 < String.length text)%nat →
       shown = String.substring 0 500 text +:+ "..." ∧
       String.length shown = 503%nat))
    docs sources.
Proof.
  revert sources. induction docs as [|d rest IH]; intros sources; simpl.
  { intros [= <-]. constructor. }
  unfold source_content.
  destruct (get d "content" (VStr EmptyString)) as [text|z|f] eqn:Hcontent;
    [|done..].
  set (shown := if 500 <? Z.of_nat (String.length text)
                then String.substring 0 500 text +:+ "..." else text).
  assert ((if 500 <? Z.of_nat (String.length text)
           then inr (VStr (String.substring 0 500 text +:+ "..."))
           else inr (VStr text)) = (inr (VStr shown) : exn + pyval float)) as ->.
  { unfold shown. by destruct (500 <? Z.of_nat (String.length text)). }
  destruct (_format_sources rest) as [e|sources'] eqn:Hrest; [done|].
  intros [= <-]. constructor; [|by apply IH].
  exists text, shown. split; [done|].
  split; [rewrite lookup_insert_ne by done; by rewrite lookup_insert_eq|].
  split; [by rewrite lookup_insert_eq|].
  split; [do 2 (rewrite lookup_insert_ne by done); by rewrite lookup_insert_eq|].
  split; [rewrite !dom_insert_L, dom_singleton_L; set_solver|].
  unfold shown. split.
  - intros Hlen. by destruct (Z.ltb_spec 500 (Z.of_nat (String.length text))); [lia|].
  - intros Hlen. destruct (Z.ltb_spec 500 (Z.of_nat (String.length text))); [|lia].
    split; [done|]. rewrite length_append, length_substring_0.
    by rewrite Nat.min_l by lia.
Qed.

Lemma format_sources_returns docs :
  Forall (λ d, ∃ text, d !! "content" = Some (VStr text)) docs →
  ∃ sources, _format_sources docs = inr sources.
Proof.
  induction 1 as [|d rest [text Hd] Hrest [sources IH]]; simpl; [by eexists|].
  unfold get. rewrite Hd. simpl.
  destruct (500 <? Z.of_nat (String.length text)); rewrite IH; by eexists.
Qed.

End PipelineTheorems.

Section ResponseTheorems.

Context {float : Type} `{!EqDecision float, !Countable float}.
Context (E : Services float).

Implicit Types (w : world float) (s : VectorStore float).
Implicit Types (docs : list (dict float)) (d : dict float).

(** ** [get_response] *)

Lemma openai_chat_world system_content user_content w :
  (openai_chat E system_content user_content w).2 =
  logged (ChatCompletionsCreate model system_content user_content) w.
Proof.
  unfold openai_chat, logged.
  by destruct (chat_completions_create E _ _ _ _) as [e|[|content others]].
Qed.

(** X13. [get_response] never changes the store, and the external calls
    it makes are none, or the embedding call for the query, or that call
    followed by one chat completion. *)
Theorem get_response_calls q role k w :
  let w' := (get_response E q role k w).2 in
  self w' = self w ∧
  (calls w' = calls w ∨
   calls w' = calls w ++ [embedding_call w [q]] ∨
   ∃ system_content user_content,
     calls w' = calls w ++ [embedding_call w [q];
                            ChatCompletionsCreate model system_content user_content]).
Proof.
  intros w'. unfold w', get_response, try_except, get_response_body, bind, lift.
  destruct (similarity_search_world E q k (default_score_threshold E) w)
    as [Hself Hcalls].
  destruct (Z.eqb_spec (ntotal (self w)) 0) as [Hn|Hn].
  { rewrite similarity_search_empty_index.
    - simpl. split; [done|]. by left.
    - unfold ntotal in Hn. by destruct (index (self w)). }
  fold (embedding_call w [q]) in Hcalls.
  destruct (similarity_search E q k (default_score_threshold E) w)
    as [[e|[|d ds]] w1]; cbn [fst snd] in *.
  - split; [done|]. by right; left.
  - split; [done|]. by right; left.
  - remember (d :: ds) as results eqn:Hresults. clear Hresults.
    destruct (_prepare_context E results) as [e|context]; cbn [fst snd ret].
    { split; [done|]. by right; left. }
    pose proof (openai_chat_world (_get_system_prompt role)
                  (_create_role_specific_prompt q context role) w1) as Hchat.
    destruct (openai_chat E _ _ w1) as [[e|content] w2];
      cbn [fst snd] in *; subst w2.
    + unfold logged, ret; cbn [fst snd self calls]. split; [done|].
      right; right. eexists _, _. by rewrite Hcalls, <- app_assoc.
    + destruct (_format_sources results) as [e|sources];
        unfold logged, ret; cbn [fst snd self calls];
        (split; [done|]); right; right; eexists _, _;
        by rewrite Hcalls, <- app_assoc.
Qed.

End ResponseTheorems.


Section AnswerTheorems.

Context {float : Type} `{!EqDecision float, !Countable float}.
Context (E : Services float).

Implicit Types (w : world float) (s : VectorStore float).
Implicit Types (docs : list (dict float)) (d : dict float).

Lemma format_sources_length docs sources :
  _format_sources docs = inr sources → length sources = length docs.
Proof.
  revert sources. induction docs as [|d rest IH]; intros sources; simpl.
  { by intros [= <-]. }
  destruct (source_content _) as [e|content]; [done|].
  destruct (_format_sources rest) as [e|sources'] eqn:Hrest; [done|].
  intros [= <-]. simpl. by rewrite (IH sources').
Qed.

Lemma results_fields q k thr w results w' :
  content_ok (self w) →
  similarity_search E q k thr w = (inr results, w') →
  Forall (λ r, (∃ score, r !! "score" = Some (VFloat score)) ∧
               ∃ text, r !! "content" = Some (VStr text)) results.
Proof.
  intros Hok [(_ & -> & _)|(_ & Hjoin & _)]%similarity_search_returns;
    [constructor|].
  apply Forall_forall. intros r [i Hi]%list_elem_of_lookup.
  destruct (Forall2_lookup_r _ _ _ _ _ Hjoin Hi) as (h & _ & d & Hd & ->).
  split; [by rewrite lookup_insert_eq; eexists|].
  rewrite lookup_insert_ne by done. by eapply Hok.
Qed.

(** X14. On a store reached from a new one, when retrieval returns
    results, [_prepare_context] and [_format_sources] return on them; and
    once the chat completion answers with a first choice, [get_response]
    returns that choice's content as ['answer'], one formatted source per
    result and their number as ['context_used'], after exactly that chat
    call. *)
Theorem get_response_answers ops dim log q role k results w1 :
  let w := run E ops {| self := init dim; calls := log |} in
  similarity_search E q k (default_score_threshold E) w = (inr results, w1) →
  results ≠ [] →
  ∃ context sources,
    _prepare_context E results = inr context ∧
    _format_sources results = inr sources ∧
    length sources = length results ∧
    ∀ content others,
      chat_completions_create E (calls w1) model (_get_system_prompt role)
        (_create_role_specific_prompt q context role) = inr (content :: others) →
      get_response E q role k w =
      (inr {[ "answer" := match content with
                          | Some text => RStr text
                          | None => RNone
                          end;
              "sources" := RList sources;
              "context_used" := RInt (Z.of_nat (length results)) ]},
       logged (ChatCompletionsCreate model (_get_system_prompt role)
                 (_create_role_specific_prompt q context role)) w1).
Proof.
  intros w Hsearch Hne.
  assert (content_ok (self w)) as Hok.
  { apply run_frame. by intros i d. }
  pose proof (results_fields _ _ _ _ _ _ Hok Hsearch) as Hfields.
  destruct (proj2 (context_parts_returns_iff E 1 results)) as [parts Hparts].
  { eapply Forall_impl; [exact Hfields|].
    intros r [[score Hscore] _] text. unfold get. by rewrite Hscore. }
  destruct (format_sources_returns results) as [sources Hsources].
  { eapply Forall_impl; [exact Hfields|]. by intros r [_ ?]. }
  exists (join newline parts), sources.
  assert (_prepare_context E results = inr (join newline parts)) as Hcontext.
  { unfold _prepare_context. by rewrite Hparts. }
  split; [done|]. split; [done|].
  split; [by apply format_sources_length|].
  intros content others Hchat.
  unfold get_response, try_except, get_response_body, bind. rewrite Hsearch.
  destruct results as [|d ds]; [done|]. cbv beta iota zeta.
  unfold lift. rewrite Hcontext. cbv beta iota zeta.
  unfold openai_chat. rewrite Hchat. cbv beta iota zeta.
  by rewrite Hsources.
Qed.

(** ** [get_document_summary] *)

(** X15. [get_document_summary] never raises and never changes the
    store; the text it returns is never empty; it makes no external call
    when no chunk has the source, returning the fixed sentence, and at
    most one chat completion otherwise. *)
Theorem get_document_summary_total (source : string) w :
  ∃ text w',
    get_document_summary E source w = (inr text, w') ∧
    text ≠ EmptyString ∧
    self w' = self w ∧
    (get_document_by_source source (self w) = [] →
     text = "No document found with source: " +:+ source ∧ w' = w) ∧
    (calls w' = calls w ∨
     ∃ prompt,
       calls w' = calls w ++ [ChatCompletionsCreate model summary_system_prompt prompt]).
Proof.
  unfold get_document_summary, try_except, bind, get_self, lift, ret, raise.
  destruct (get_document_by_source source (self w)) as [|chunk chunks] eqn:Hfound.
  { eexists _, _. split; [done|]. split; [by simpl|]. split; [done|].
    split; [done|]. by left. }
  remember (chunk :: chunks) as found eqn:Hf. cbv beta iota zeta.
  assert (found ≠ []) as Hne by (by subst found). clear Hf.
  destruct (content_items 0 found) as [e|items]; cbv beta iota zeta.
  { eexists _, _. split; [done|]. split; [by simpl|]. split; [done|].
    split; [done|]. by left. }
  pose proof (openai_chat_world E summary_system_prompt
                (summary_prompt source (join newline items)) w) as Hchat.
  destruct (openai_chat E _ _ w) as [[e|content] w2] eqn:Hrun;
    cbn [fst snd] in Hchat; subst w2; cbv beta iota zeta.
  - eexists _, _. split; [done|]. split; [by simpl|]. split; [done|].
    split; [done|]. right. by eexists.
  - eexists _, _. split; [done|].
    split; [by destruct content as [[|c text]|]|]. split; [done|].
    split; [done|]. right. by eexists.
Qed.

End AnswerTheorems.

(** ** [utils.py] *)

(** X16. [truncate_text] with a maximal length that is not negative: a
    text within it is returned as it is; a longer one is cut to its first
    [max_length] characters, a prefix of it, followed by ["..."], so that
    the result has [max_length + 3] characters, which is the bound on
    every result. *)
Theorem truncate_text_bounds (text : string) (max_length : Z) :
  0 ≤ max_length →
  (Z.of_nat (String.length text) ≤ max_length →
   truncate_text text max_length = text) ∧
  (max_length < Z.of_nat (String.length text) →
   ∃ head,
     truncate_text text max_length = head +:+ "..." ∧
     Z.of_nat (String.length head) = max_length ∧
     String.prefix head text = true) ∧
  Z.of_nat (String.length (truncate_text text max_length)) ≤ max_length + 3.
Proof.
  intros Hmax. unfold truncate_text, slice_to.
  destruct (Z.leb_spec (Z.of_nat (String.length text)) max_length) as [Hle|Hlt].
  - split; [done|]. split; [lia|lia].
  - destruct (Z.leb_spec 0 max_length) as [_|?]; [|lia].
    split; [lia|]. split.
    + intros _. eexists. split; [done|].
      split; [rewrite length_substring_0; lia|apply prefix_substring_0].
    + rewrite length_append, length_substring_0.
      change (String.length "...") with 3%nat. lia.
Qed.


(** X18. [format_file_size] of a positive size below [2 ^ 53]: the loop
    stops after at most three divisions, with the unit at index [i] of
    [B, KB, MB, GB]; the number shown is the size divided by [1024 ^ i]
    and rounded down, so the decimal is always [0]; it is at least [1],
    and below [1024] unless the unit is [GB]. *)
Theorem format_file_size_shown (size_bytes : Z) :
  0 < size_bytes < 2 ^ 53 →
  ∃ (shown : Z) (i : nat) (name : string),
    format_file_size size_bytes = pretty shown +:+ ".0 " +:+ name ∧
    size_names !! i = Some name ∧
    shown * 1024 ^ Z.of_nat i ≤ size_bytes < (shown + 1) * 1024 ^ Z.of_nat i ∧
    1 ≤ shown ∧
    (shown < 1024 ∨ i = 3%nat).
Proof.
  intros [Hpos Hbound]. unfold format_file_size.
  destruct (Z.eqb_spec size_bytes 0) as [?|_]; [lia|].
  cbn [scale_size size_names length Nat.sub Nat.ltb Nat.leb andb].
  destruct (Z.leb_spec 1024 size_bytes) as [H1|H1]; cbn [andb].
  2:{ exists size_bytes, 0%nat, "B". split; [done|]. split; [done|].
      change (1024 ^ Z.of_nat 0) with 1. lia. }
  destruct (Z.leb_spec 1024 (size_bytes / 1024)) as [H2|H2]; cbn [andb].
  2:{ exists (size_bytes / 1024), 1%nat, "KB". split; [done|]. split; [done|].
      change (1024 ^ Z.of_nat 1) with 1024.
      pose proof (Z.div_mod size_bytes 1024 ltac:(lia)).
      pose proof (Z.mod_pos_bound size_bytes 1024 ltac:(lia)). lia. }
  destruct (Z.leb_spec 1024 (size_bytes / 1024 / 1024)) as [H3|H3]; cbn [andb].
  2:{ exists (size_bytes / 1024 / 1024), 2%nat, "MB".
      split; [done|]. split; [done|].
      change (1024 ^ Z.of_nat 2) with 1048576.
      pose proof (Z.div_mod size_bytes 1024 ltac:(lia)).
      pose proof (Z.mod_pos_bound size_bytes 1024 ltac:(lia)).
      pose proof (Z.div_mod (size_bytes / 1024) 1024 ltac:(lia)).
      pose proof (Z.mod_pos_bound (size_bytes / 1024) 1024 ltac:(lia)). lia. }
  exists (size_bytes / 1024 / 1024 / 1024), 3%nat, "GB".
  split; [done|]. split; [done|].
  change (1024 ^ Z.of_nat 3) with 1073741824.
  pose proof (Z.div_mod size_bytes 1024 ltac:(lia)).
  pose proof (Z.mod_pos_bound size_bytes 1024 ltac:(lia)).
  pose proof (Z.div_mod (size_bytes / 1024) 1024 ltac:(lia)).
  pose proof (Z.mod_pos_bound (size_bytes / 1024) 1024 ltac:(lia)).
  pose proof (Z.div_mod (size_bytes / 1024 / 1024) 1024 ltac:(lia)).
  pose proof (Z.mod_pos_bound (size_bytes / 1024 / 1024) 1024 ltac:(lia)). lia.
Qed.

(** ** The further properties on the mock environment *)

Lemma store_invariant_witness :
  ∃ d, documents (self (run Mock.services Mock.session Mock.fresh)) !! 3%nat = Some d ∧
       d !! "doc_id" = Some (VInt 3) ∧
       ∃ text, d !! "content" = Some (VStr text).
Proof.
  destruct (lookup_lt_is_Some_2
              (documents (self (run Mock.services Mock.session Mock.fresh))) 3)
    as [d Hd].
  { assert (length (documents (self (run Mock.services Mock.session Mock.fresh)))
            = 4%nat) as -> by (vm_compute; reflexivity).
    lia. }
  exists d. split; [done|].
  exact (proj2 (proj2 (proj2 (store_invariant Mock.services Mock.session 3 [])))
           3%nat d Hd).
Defined.

Lemma add_documents_record_witness :
  ∃ w' d,
    add_documents Mock.services Mock.chunks Mock.loaded = (inr tt, w') ∧
    documents (self w') !! (length (documents (self Mock.loaded)) + 1)%nat = Some d ∧
    d !! "content" = Some (VStr "KYC requires Y") ∧
    d !! "doc_id" = Some (VInt (document_count (self Mock.loaded) + 1)) ∧
    d !! "vector_index" =
      Some (VInt (Z.of_nat (length (documents (self Mock.loaded))) + 2)).
Proof.
  destruct (add_documents Mock.services Mock.chunks Mock.loaded)
    as [[e|[]] w'] eqn:Hrun; [did_return Hrun|].
  destruct (add_documents_record Mock.services Mock.chunks Mock.loaded w' 1
              (Mock.doc "KYC requires Y" "docA" 1) Hrun eq_refl)
    as (d & Hd & Hcontent & Hid & Hvi & _).
  by exists w', d.
Defined.

Lemma add_documents_raises_iff_witness :
  ∃ e w',
    add_documents Mock.offline Mock.chunks Mock.fresh = (inl e, w') ∧
    e = add_error (embedding_error Mock.APIConnectionError).
Proof.
  eexists _, _. split; [|reflexivity].
  apply (add_documents_raises_iff Mock.offline). split; [reflexivity|].
  left. by eexists.
Defined.

Lemma similarity_search_read_only_witness :
  ∃ results w',
    similarity_search Mock.services "What does AML require?" 5 1 Mock.loaded
      = (inr results, w') ∧
    Forall (λ r, ∃ d score,
                d ∈ documents (self Mock.loaded) ∧
                r = <["score" := VFloat score]> d ∧
                ∀ key, key ≠ "score" → r !! key = d !! key) results.
Proof.
  destruct (similarity_search Mock.services "What does AML require?" 5 1 Mock.loaded)
    as [[e|results] w'] eqn:Hrun; [did_return Hrun|].
  exists results, w'. split; [done|].
  exact (proj2 (similarity_search_read_only Mock.services _ _ _ _) _ _ Hrun).
Defined.

Lemma similarity_search_returns_iff_witness :
  ∃ results w',
    similarity_search Mock.services "What does KYC require?" 1 1 Mock.loaded
      = (inr results, w').
Proof.
  apply (similarity_search_returns_iff Mock.services); [vm_compute; discriminate|].
  exists [[0; 1; 0]], [(1, 1)], [].
  split; [vm_compute; reflexivity|]. split; [vm_compute; reflexivity|].
  apply Forall_cons. split; [|constructor].
  intros _. vm_compute. lia.
Defined.

Lemma get_document_by_source_add_documents_witness :
  ∃ w' new,
    add_documents Mock.services (Mock.report :: Mock.chunks) Mock.loaded
      = (inr tt, w') ∧
    get_document_by_source "docA" (self w')
      = get_document_by_source "docA" (self Mock.loaded) ++ new ∧
    length new = 2%nat.
Proof.
  destruct (add_documents Mock.services (Mock.report :: Mock.chunks) Mock.loaded)
    as [[e|[]] w'] eqn:Hrun; [did_return Hrun|].
  destruct (get_document_by_source_add_documents Mock.services "docA" _ _ _ Hrun)
    as (new & Hnew & Hall).
  exists w', new. split; [done|]. split; [done|].
  rewrite <- (Forall2_length _ _ _ Hall). vm_compute. reflexivity.
Defined.


Lemma format_sources_entries_witness :
  ∃ sources,
    _format_sources (documents (self Mock.loaded)) = inr sources ∧
    length sources = length (documents (self Mock.loaded)).
Proof.
  destruct (_format_sources (documents (self Mock.loaded))) as [e|sources] eqn:Hrun.
  { exfalso.
    apply (returned_true (_format_sources (documents (self Mock.loaded))) e);
      [vm_compute; reflexivity|done]. }
  exists sources. split; [done|].
  symmetry. exact (Forall2_length _ _ _ (format_sources_entries _ _ Hrun)).
Defined.

Lemma get_response_answers_witness :
  ∃ results w1 r w',
    similarity_search Mock.services "What does AML require?" 5
      (default_score_threshold Mock.services)
      (run Mock.services [AddDocuments Mock.chunks] Mock.fresh) = (inr results, w1) ∧
    get_response Mock.services "What does AML require?" "Compliance Analyst" 5
      (run Mock.services [AddDocuments Mock.chunks] Mock.fresh) = (inr r, w') ∧
    r !! "context_used" = Some (RInt (Z.of_nat (length results))).
Proof.
  destruct (similarity_search Mock.services "What does AML require?" 5
              (default_score_threshold Mock.services)
              (run Mock.services [AddDocuments Mock.chunks] Mock.fresh))
    as [r0 w1] eqn:Hrun.
  destruct (shown_results r0 [(Some 1, Some 0)]) as (results & -> & Hmap).
  { replace r0 with
      (similarity_search Mock.services "What does AML require?" 5
         (default_score_threshold Mock.services)
         (run Mock.services [AddDocuments Mock.chunks] Mock.fresh)).1
      by by rewrite Hrun.
    vm_compute. reflexivity. }
  assert (results ≠ []) as Hne by (by intros ->).
  destruct (get_response_answers Mock.services [AddDocuments Mock.chunks] 3 []
              "What does AML require?" "Compliance Analyst" 5 results w1 Hrun Hne)
    as (context & sources & _ & _ & _ & Hanswer).
  eexists results, w1, _, _. split; [done|].
  split; [exact (Hanswer _ [] eq_refl)|].
  do 2 (rewrite lookup_insert_ne by done). by rewrite lookup_singleton_eq.
Defined.

Lemma get_document_summary_total_witness :
  get_document_summary Mock.services "docC" Mock.loaded =
  (inr "No document found with source: docC", Mock.loaded).
Proof.
  destruct (get_document_summary_total Mock.services "docC" Mock.loaded)
    as (text & w' & Hrun & _ & _ & Hnone & _).
  destruct Hnone as [-> ->]; [vm_compute; reflexivity|]. exact Hrun.
Defined.

Lemma truncate_text_bounds_witness :
  Z.of_nat (String.length (truncate_text "Regulatory compliance" 10)) ≤ 10 + 3.
Proof. apply (truncate_text_bounds "Regulatory compliance" 10). lia. Defined.


Lemma format_file_size_shown_witness :
  ∃ (shown : Z) (i : nat) (name : string),
    format_file_size 1536 = pretty shown +:+ ".0 " +:+ name ∧
    size_names !! i = Some name ∧
    shown * 1024 ^ Z.of_nat i ≤ 1536 < (shown + 1) * 1024 ^ Z.of_nat i ∧
    1 ≤ shown ∧
    (shown < 1024 ∨ i = 3%nat).
Proof.
  apply (format_file_size_shown 1536). split; [lia|]. vm_compute. reflexivity.
Defined.
